(** * hydro-ai: the /analyze endpoint of backend/main.py

    A shallow embedding of [src/backend/main.py].  The Python module is a thin
    client of the Earth Engine service: it builds image expressions, issues a
    few blocking remote calls ([size().getInfo()], [getMapId],
    [reduceRegion(...).getInfo()]) and shapes the answer.

    - Python exceptions and logging are modelled by a small exception/trace
      monad [M]: a computation reads the trace of events emitted so far and
      returns either a value or a raised exception, with the extended trace.
    - Earth Engine images are modelled by their pixels: a raster maps a pixel
      to [Some v] or to [None] when the pixel is masked.  Integer bands carry
      [Z], derived bands carry exact rationals [Q].
    - What only the remote service knows (the catalogue, its reducers, which
      call fails) is gathered in the record [Service].
    - Python floats of the response are binary64 primitive floats. *)

From Stdlib Require Import ZArith QArith String List Bool Lia.
From Stdlib Require Import PrimFloat SpecFloat FloatOps.
From stdpp Require Import base option list gmap strings pretty.
From Stdlib Require Import Lqa.

Set Warnings "-inexact-float,-register-all".
Close Scope Q_scope.
Open Scope string_scope.
Open Scope Z_scope.

(** ** Python values that cross the wire *)

(** A decoded JSON document (the request body, the GeoJSON geometry). *)
Inductive Json : Type :=
| JNull
| JBool (b : bool)
| JNumber (q : Q)
| JString (s : string)
| JArray (l : list Json)
| JObject (d : gmap string Json).

(** A Python number as [json] decodes it: [int] or [float]. *)
Inductive PyNum : Type :=
| PyInt (z : Z)
| PyFloat (f : float).

(** ** Exceptions, events and the monad *)

(** [HTTPException] is a subclass of [Exception]; every other exception that
    can reach the handler is kept as [Exception msg], [msg] being [str(e)]. *)
Inductive PyExc : Type :=
| HTTPException (status_code : Z) (detail : string)
| Exception (msg : string).

(** [str(e)]; Starlette prints an [HTTPException] as "status: detail". *)
Definition str (e : PyExc) : string :=
  match e with
  | HTTPException status_code detail => pretty status_code ++ ": " ++ detail
  | Exception msg => msg
  end.

Inductive Level : Type := INFO | ERROR.

(** The blocking calls to the compute service. *)
Inductive RemoteCall : Type :=
| size_getInfo (start_date end_date : string)
| getMapId
| reduceRegion_getInfo
| Initialize (credentials : option (string * string)).

(** Local functions whose invocation is recorded in the trace. *)
Inductive Func : Type :=
| F_classify_water
| F_detect_change
| F_ServiceAccountCredentials.

Inductive Event : Type :=
| Log (level : Level) (msg : string)
| Remote (call : RemoteCall)
| Call (f : Func).

Definition Trace : Type := list Event.

Inductive Result (A : Type) : Type :=
| Ok (a : A)
| Raise (e : PyExc).
Arguments Ok {A} a.
Arguments Raise {A} e.

Definition M (A : Type) : Type := Trace -> Result A * Trace.

Definition ret {A} (a : A) : M A := fun tr => (Ok a, tr).

Definition bind {A B} (m : M A) (k : A -> M B) : M B :=
  fun tr =>
    match m tr with
    | (Ok a, tr') => k a tr'
    | (Raise e, tr') => (Raise e, tr')
    end.

Definition raise {A} (e : PyExc) : M A := fun tr => (Raise e, tr).

Definition emit (ev : Event) : M unit := fun tr => (Ok tt, (tr ++ [ev])%list).

(** [try: m except Exception as e: h e] (every [PyExc] is an [Exception]). *)
Definition try_except {A} (m : M A) (h : PyExc -> M A) : M A :=
  fun tr =>
    match m tr with
    | (Ok a, tr') => (Ok a, tr')
    | (Raise e, tr') => h e tr'
    end.

Declare Scope py_scope.
Delimit Scope py_scope with py.
Notation "x <~ m ; k" := (bind m (fun x => k))
  (at level 100, m at next level, right associativity) : py_scope.
Notation "m ;> k" := (bind m (fun _ => k))
  (at level 100, right associativity) : py_scope.
Open Scope py_scope.

Definition logger_info (msg : string) : M unit := emit (Log INFO msg).
Definition logger_error (msg : string) : M unit := emit (Log ERROR msg).

(** Number of remote calls already issued in a trace. *)
Definition is_remote (ev : Event) : bool :=
  match ev with Remote _ => true | _ => false end.

Definition remote_calls (tr : Trace) : nat :=
  length (List.filter is_remote tr).

(** Records that a local function runs, then yields its (pure) result. *)
Definition invoke {A} (f : Func) (a : A) : M A := emit (Call f) ;> ret a.

(** ** Rasters and images *)

Definition Pixel : Type := Z * Z.

(** [None] is a masked pixel. *)
Definition Raster (V : Type) : Type := Pixel -> option V.

(** A single-band image: the band's name and its pixels. *)
Record Band (V : Type) : Type := mkBand { band_name : string; px : Raster V }.
Arguments mkBand {V} band_name px.
Arguments band_name {V} b.
Arguments px {V} b p.

(** A multi-band image, by band name. *)
Definition Image (V : Type) : Type := string -> Raster V.

(** A region: the grid cells it covers. *)
Definition Geometry : Type := list Pixel.

Definition Pixel_eqb (p q : Pixel) : bool :=
  (fst p =? fst q) && (snd p =? snd q).

Definition contains (g : Geometry) (p : Pixel) : bool :=
  existsb (Pixel_eqb p) g.

Definition intersects (g1 g2 : Geometry) : bool :=
  existsb (contains g2) g1.

(** A Sentinel-2 scene of the catalogue with the metadata the filters read. *)
Record Scene : Type := mkScene {
  footprint : Geometry;
  time_start : Z;
  CLOUDY_PIXEL_PERCENTAGE : Q;
  bands : Image Z
}.

(** ** What the remote service decides *)

Record Service : Type := mkService {
  (** the scenes of "COPERNICUS/S2_SR_HARMONIZED" *)
  catalog : list Scene;
  (** how the service reads a date string, in milliseconds *)
  date_millis : string -> Z;
  (** the median reducer, on a non-empty list of unmasked inputs *)
  median_of : list Q -> Q;
  (** the client-side [ee.Geometry] constructor: a region, or the message of
      the exception it raises on GeoJSON it refuses *)
  geometry_of : gmap string Json -> string + Geometry;
  (** [fault n = Some msg]: the [n]-th remote call of the request raises an
      exception whose message is [msg] *)
  fault : nat -> option string;
  (** [map_id['tile_fetcher'].url_format] of the map issued for a raster *)
  url_format : Band Z -> string;
  (** the decoded answer of the histogram reduction over a region; a band
      without any unmasked input is reported as Python [None] *)
  region_stats : Band Z -> Geometry -> gmap string (option (gmap string PyNum))
}.

(** A blocking remote call: recorded in the trace, it raises when the service
    faults on it and returns the service's answer otherwise. *)
Definition remote {A} (svc : Service) (call : RemoteCall) (answer : A) : M A :=
  fun tr =>
    match fault svc (remote_calls tr) with
    | Some msg => (Raise (Exception msg), (tr ++ [Remote call])%list)
    | None => (Ok answer, (tr ++ [Remote call])%list)
    end.

(** ** The Earth Engine operations the module uses, pixel by pixel *)

Definition Qlt_bool (x y : Q) : bool := negb (Qle_bool y x).

Definition Z_of_bool (b : bool) : Z := if b then 1 else 0.

Module ee.

(** [ee.Image(v)]: a constant band named "constant". *)
Definition Image_const (v : Z) : Band Z :=
  mkBand "constant" (fun _ => Some v).

Definition select {V} (image : Image V) (name : string) : Band V :=
  mkBand name (image name).

Definition rename {V} (b : Band V) (name : string) : Band V :=
  mkBand name (px b).

Definition bitwiseAnd (b : Band Z) (m : Z) : Band Z :=
  mkBand (band_name b)
    (fun p => match px b p with
              | Some v => Some (Z.land v m)
              | None => None
              end).

Definition eq (b : Band Z) (v : Z) : Band Z :=
  mkBand (band_name b)
    (fun p => match px b p with
              | Some x => Some (Z_of_bool (x =? v))
              | None => None
              end).

(** Logical and: 1 where both inputs are non-zero. *)
Definition And (a b : Band Z) : Band Z :=
  mkBand (band_name a)
    (fun p => match px a p, px b p with
              | Some x, Some y => Some (Z_of_bool (negb (x =? 0) && negb (y =? 0)))
              | _, _ => None
              end).

(** Strict comparison with a constant. *)
Definition gt (b : Band Q) (threshold : Q) : Band Z :=
  mkBand (band_name b)
    (fun p => match px b p with
              | Some x => Some (Z_of_bool (Qlt_bool threshold x))
              | None => None
              end).

(** [input.where(test, value)]: [value] where [test] is non-zero, the input
    elsewhere; a masked test leaves the input, a masked input stays masked. *)
Definition where_ (input test : Band Z) (value : Z) : Band Z :=
  mkBand (band_name input)
    (fun p => match px input p with
              | None => None
              | Some i =>
                  match px test p with
                  | Some t => if t =? 0 then Some i else Some value
                  | None => Some i
                  end
              end).

(** [selfMask]: masks the pixels whose value is zero. *)
Definition selfMask (b : Band Z) : Band Z :=
  mkBand (band_name b)
    (fun p => match px b p with
              | Some v => if v =? 0 then None else Some v
              | None => None
              end).

(** [image.updateMask(mask)]: every band keeps a pixel only where the mask
    is unmasked and non-zero. *)
Definition updateMask {V} (image : Image V) (mask : Band Z) : Image V :=
  fun name p =>
    match px mask p with
    | Some m => if m =? 0 then None else image name p
    | None => None
    end.

Definition divide (image : Image Z) (d : Z) : Image Q :=
  fun name p =>
    match image name p with
    | Some v => Some (inject_Z v / inject_Z d)%Q
    | None => None
    end.

Definition clip {V} (image : Image V) (roi : Geometry) : Image V :=
  fun name p => if contains roi p then image name p else None.

(** [(first - second) / (first + second)], in a band named "nd"; masked
    where an input is masked or negative, or where the sum is zero. *)
Definition normalizedDifference (image : Image Q) (first second : string) : Band Q :=
  mkBand "nd"
    (fun p => match image first p, image second p with
              | Some a, Some b =>
                  if Qlt_bool a 0 || Qlt_bool b 0 || Qeq_bool (a + b) 0 then None
                  else Some ((a - b) / (a + b))%Q
              | _, _ => None
              end).

(** *** Collections *)

Definition ImageCollection (svc : Service) (id : string) : list Scene :=
  if String.eqb id "COPERNICUS/S2_SR_HARMONIZED" then catalog svc else [].

Definition filterBounds (coll : list Scene) (roi : Geometry) : list Scene :=
  List.filter (fun s => intersects (footprint s) roi) coll.

(** Start inclusive, end exclusive. *)
Definition filterDate (svc : Service) (coll : list Scene) (start_date end_date : string)
  : list Scene :=
  List.filter
    (fun s => (date_millis svc start_date <=? time_start s)
              && (time_start s <? date_millis svc end_date))
    coll.

Definition get (s : Scene) (property : string) : option Q :=
  if String.eqb property "CLOUDY_PIXEL_PERCENTAGE"
  then Some (CLOUDY_PIXEL_PERCENTAGE s) else None.

(** [ee.Filter.lt(property, value)] *)
Definition Filter_lt (property : string) (value : Q) (s : Scene) : bool :=
  match get s property with
  | Some x => Qlt_bool x value
  | None => false
  end.

Definition filter (coll : list Scene) (f : Scene -> bool) : list Scene :=
  List.filter f coll.

Definition size (coll : list Scene) : Z := Z.of_nat (length coll).

Definition map {V} (coll : list Scene) (f : Image Z -> Image V) : list (Image V) :=
  List.map (fun s => f (bands s)) coll.

(** Per band and pixel, the median of the unmasked inputs; masked where
    every input is masked. *)
Definition median (svc : Service) (coll : list (Image Q)) : Image Q :=
  fun name p =>
    match omap (fun image : Image Q => image name p) coll with
    | [] => None
    | vs => Some (median_of svc vs)
    end.

(** [ee.Geometry(geojson)]; raises on GeoJSON the client refuses. *)
Definition Geometry (svc : Service) (geojson : gmap string Json) : M Geometry :=
  match geometry_of svc geojson with
  | inl msg => raise (Exception msg)
  | inr roi => ret roi
  end.

End ee.

(** ** Python arithmetic of the response *)

(** [float(z)]: round to nearest, ties to even. *)
Definition float_of_Z (z : Z) : float :=
  SF2Prim (binary_normalize prec emax z 0 false).

(** [n * f] for a decoded number [n] and a float [f]; an [int] is converted
    first and raises [OverflowError] when it has no float. *)
Definition mul_float (n : PyNum) (f : float) : M float :=
  match n with
  | PyFloat x => ret (x * f)%float
  | PyInt z =>
      let x := float_of_Z z in
      if is_infinity x then raise (Exception "int too large to convert to float")
      else ret (x * f)%float
  end.

(** [d.get(key, default)] on what may be [None]. *)
Definition dict_get (d : option (gmap string PyNum)) (key : string) (default : PyNum)
  : M PyNum :=
  match d with
  | None => raise (Exception "'NoneType' object has no attribute 'get'")
  | Some h => ret (match h !! key with Some v => v | None => default end)
  end.

Definition newline : string := String (Ascii.ascii_of_nat 10) EmptyString.

(** ** Request and response models *)

Record AnalysisRequest : Type := mkAnalysisRequest {
  geojson : gmap string Json;
  date1_start : string;
  date1_end : string;
  date2_start : string;
  date2_end : string
}.

Record Stats : Type := mkStats {
  gain_sqkm : float;
  loss_sqkm : float;
  persistent_sqkm : float
}.

Record AnalysisResponse : Type := mkAnalysisResponse {
  tile_url : string;
  stats : Stats
}.

(** ** backend/main.py *)

Section Backend.

Variable svc : Service.

(** *** GEE helper functions *)

Definition mask_clouds (image : Image Z) : Image Q :=
  let qa := ee.select image "QA60" in
  let cloud_bit_mask := Z.shiftl 1 10 in
  let cirrus_bit_mask := Z.shiftl 1 11 in
  let mask :=
    ee.And (ee.eq (ee.bitwiseAnd qa cloud_bit_mask) 0)
           (ee.eq (ee.bitwiseAnd qa cirrus_bit_mask) 0) in
  ee.divide (ee.updateMask image mask) 10000.

(** Fetches Sentinel-2 data. Returns [None] if no clear images found. *)
Definition get_sentinel_mosaic (roi : Geometry) (start_date end_date : string)
  : M (option (Image Q)) :=
  try_except
    (let s2 :=
       ee.filter
         (ee.filterDate svc
            (ee.filterBounds (ee.ImageCollection svc "COPERNICUS/S2_SR_HARMONIZED") roi)
            start_date end_date)
         (ee.Filter_lt "CLOUDY_PIXEL_PERCENTAGE" 30) in
     count <~ remote svc (size_getInfo start_date end_date) (ee.size s2) ;
     if count =? 0 then ret None
     else ret (Some (ee.clip (ee.median svc (ee.map s2 mask_clouds)) roi)))
    (fun e =>
       logger_error ("Error fetching Sentinel data: " ++ str e) ;>
       raise e).

Definition calculate_ndwi (image : Image Q) : Band Q :=
  ee.rename (ee.normalizedDifference image "B3" "B8") "NDWI".

(** The default of the [threshold] parameter. *)
Definition threshold_default : Q := 0.

Definition classify_water (image : Image Q) (threshold : Q) : Band Z :=
  let ndwi := calculate_ndwi image in
  ee.rename (ee.gt ndwi threshold) "water".

(** *** The endpoint *)

(** Step 4 of [analyze_change]: 1 = gain, 2 = loss, 3 = persistent. *)
Definition detect_change (water_t1 water_t2 : Band Z) : Band Z :=
  ee.selfMask
    (ee.where_
       (ee.where_
          (ee.where_ (ee.Image_const 0)
             (ee.And (ee.eq water_t1 0) (ee.eq water_t2 1)) 1)
          (ee.And (ee.eq water_t1 1) (ee.eq water_t2 0)) 2)
       (ee.And (ee.eq water_t1 1) (ee.eq water_t2 1)) 3).

Definition detail_period1 (request : AnalysisRequest) : string :=
  "No clear images found for Period 1 (" ++ date1_start request ++ " to "
  ++ date1_end request ++ "). " ++ newline
  ++ "Suggestion: Try a different month or expand the date range.".

Definition detail_period2 (request : AnalysisRequest) : string :=
  "No clear images found for Period 2 (" ++ date2_start request ++ " to "
  ++ date2_end request ++ "). " ++ newline
  ++ "Suggestion: Monsoon clouds might be blocking the view. Try 'November' or 'April'.".

Definition pixel_area_sqkm : float := (float_of_Z (10 * 10) / 1e6)%float.

(** The body of the [try] block of [analyze_change]. *)
Definition analyze_change_body (request : AnalysisRequest) : M AnalysisResponse :=
  logger_info ("Request: T1(" ++ date1_start request ++ ") vs T2("
               ++ date2_start request ++ ")") ;>
  roi <~ ee.Geometry svc (geojson request) ;
  (* 1. Fetch Images *)
  img_t1 <~ get_sentinel_mosaic roi (date1_start request) (date1_end request) ;
  img_t2 <~ get_sentinel_mosaic roi (date2_start request) (date2_end request) ;
  (* 2. Smart Error Handling *)
  img_t1 <~ match img_t1 with
            | None => raise (HTTPException 404 (detail_period1 request))
            | Some image => ret image
            end ;
  img_t2 <~ match img_t2 with
            | None => raise (HTTPException 404 (detail_period2 request))
            | Some image => ret image
            end ;
  (* 3. Process Water *)
  water_t1 <~ invoke F_classify_water (classify_water img_t1 0) ;
  water_t2 <~ invoke F_classify_water (classify_water img_t2 0) ;
  (* 4. Detect Change *)
  change <~ invoke F_detect_change (detect_change water_t1 water_t2) ;
  (* 5. Visualization *)
  map_id <~ remote svc getMapId (url_format svc change) ;
  (* 6. Statistics (Area Calculation) *)
  stats <~ remote svc reduceRegion_getInfo (region_stats svc change roi) ;
  let histogram :=
    match stats !! "constant" with Some v => v | None => Some ∅ end in
  gain <~ (n <~ dict_get histogram "1" (PyInt 0) ; mul_float n pixel_area_sqkm) ;
  loss <~ (n <~ dict_get histogram "2" (PyInt 0) ; mul_float n pixel_area_sqkm) ;
  persistent <~ (n <~ dict_get histogram "3" (PyInt 0) ; mul_float n pixel_area_sqkm) ;
  ret {| tile_url := map_id;
         stats := {| gain_sqkm := gain;
                     loss_sqkm := loss;
                     persistent_sqkm := persistent |} |}.

(** The two [except] clauses of [analyze_change]. *)
Definition analyze_change_except (e : PyExc) : M AnalysisResponse :=
  match e with
  | HTTPException _ _ => raise e
  | Exception _ =>
      logger_error ("Server Error: " ++ str e) ;>
      raise (HTTPException 500 (str e))
  end.

Definition analyze_change (request : AnalysisRequest) : M AnalysisResponse :=
  try_except (analyze_change_body request) analyze_change_except.

(** *** Request validation and the HTTP surface *)

Definition get_str (body : gmap string Json) (field : string) : option string :=
  match body !! field with
  | Some (JString s) => Some s
  | _ => None
  end.

Definition get_dict (body : gmap string Json) (field : string)
  : option (gmap string Json) :=
  match body !! field with
  | Some (JObject d) => Some d
  | _ => None
  end.

(** Validation of a decoded body against the model [AnalysisRequest]:
    [geojson: dict] and four [str] fields, all required. *)
Definition AnalysisRequest_validate (body : Json) : option AnalysisRequest :=
  match body with
  | JObject d =>
      g ← get_dict d "geojson";
      s1 ← get_str d "date1_start";
      e1 ← get_str d "date1_end";
      s2 ← get_str d "date2_start";
      e2 ← get_str d "date2_end";
      Some (mkAnalysisRequest g s1 e1 s2 e2)
  | _ => None
  end.

Inductive HttpResponse : Type :=
| Http200 (content : AnalysisResponse)
| HttpError (status_code : Z) (detail : string)
| Http422.

Definition status (r : HttpResponse) : Z :=
  match r with
  | Http200 _ => 200
  | HttpError status_code _ => status_code
  | Http422 => 422
  end.

(** The JSON encoder of the response refuses a float that is infinite or
    not a number. *)
Definition json_compliant (content : AnalysisResponse) : bool :=
  is_finite (gain_sqkm (stats content))
  && is_finite (loss_sqkm (stats content))
  && is_finite (persistent_sqkm (stats content)).

(** [POST /analyze]: the framework validates the body, calls the handler,
    turns an [HTTPException] into a response and encodes what the handler
    returned; an encoding that fails, after the handler returned, is answered
    500. *)
Definition post_analyze (body : Json) : Trace -> HttpResponse * Trace :=
  fun tr =>
    match AnalysisRequest_validate body with
    | None => (Http422, tr)
    | Some request =>
        match analyze_change request tr with
        | (Ok content, tr') =>
            if json_compliant content then (Http200 content, tr')
            else (HttpError 500 "Internal Server Error", tr')
        | (Raise (HTTPException status_code detail), tr') =>
            (HttpError status_code detail, tr')
        | (Raise (Exception _), tr') => (HttpError 500 "Internal Server Error", tr')
        end
    end.

End Backend.

(** ** Initialization and authentication (module level) *)

(** What the process finds on its host when the module is imported. *)
Record Host : Type := mkHost {
  (** [os.environ] before [load_dotenv()] *)
  environ : gmap string string;
  (** the variables of the [.env] file *)
  dotenv : gmap string string;
  (** [os.path.exists] *)
  path_exists : string -> bool;
  (** the message of the exception [ee.ServiceAccountCredentials] raises on
      an account and key file, if it raises *)
  credentials_fault : string -> string -> option string;
  (** the message of the exception [ee.Initialize] raises, if it raises *)
  initialize_fault : option (string * string) -> option string
}.

(** [load_dotenv()]: variables already set are not overridden. *)
Definition load_dotenv (host : Host) : gmap string string :=
  environ host ∪ dotenv host.

Definition os_getenv (env : gmap string string) (key : string) : option string :=
  env !! key.

(** Truth value of what [os.getenv] returns: [None] and "" are false. *)
Definition truthy (v : option string) : bool :=
  match v with
  | Some s => negb (String.eqb s "")
  | None => false
  end.

Definition ServiceAccountCredentials (host : Host) (service_account key_file : string)
  : M (string * string) :=
  emit (Call F_ServiceAccountCredentials) ;>
  match credentials_fault host service_account key_file with
  | Some msg => raise (Exception msg)
  | None => ret (service_account, key_file)
  end.

Definition ee_Initialize (host : Host) (credentials : option (string * string)) : M unit :=
  emit (Remote (Initialize credentials)) ;>
  match initialize_fault host credentials with
  | Some msg => raise (Exception msg)
  | None => ret tt
  end.

(** The condition of line 20; [os.path.exists] is only asked about a
    non-empty key file. *)
Definition service_account_configured (host : Host)
  (service_account key_file : option string) : bool :=
  truthy service_account && truthy key_file
  && match key_file with Some path => path_exists host path | None => false end.

(** The body of the [try] block of lines 16 to 26. *)
Definition authenticate_body (host : Host) (env : gmap string string) : M unit :=
  let service_account := os_getenv env "GEE_SERVICE_ACCOUNT" in
  let key_file := os_getenv env "GEE_KEY_FILE" in
  if service_account_configured host service_account key_file then
    credentials <~ ServiceAccountCredentials host
                     (default "" service_account) (default "" key_file) ;
    ee_Initialize host (Some credentials) ;>
    logger_info "Authentication: Service Account Initialized"
  else
    ee_Initialize host None ;>
    logger_info "Authentication: Default Google Cloud Auth Initialized".

Definition authenticate (host : Host) (env : gmap string string) : M unit :=
  try_except (authenticate_body host env)
    (fun e => logger_error ("Authentication Failed: " ++ str e)).

Record CORSMiddleware : Type := mkCORSMiddleware {
  allow_origins : list string;
  allow_credentials : bool;
  allow_methods : list string;
  allow_headers : list string
}.

(** The application object: the middleware registered on it. *)
Definition FastAPI : Type := list CORSMiddleware.

Definition add_middleware (app : FastAPI) (m : CORSMiddleware) : FastAPI :=
  (app ++ [m])%list.

(** Importing the module: lines 15 to 38 and 152 to 158. *)
Definition import_main (host : Host) : M FastAPI :=
  let env := load_dotenv host in
  authenticate host env ;>
  let app : FastAPI := [] in
  let app := add_middleware app (mkCORSMiddleware ["*"] true ["*"] ["*"]) in
  let app := add_middleware app (mkCORSMiddleware ["*"] true ["*"] ["*"]) in
  ret app.

(** ** Vocabulary of the specification *)

#[global] Instance Qlt_decision (x y : Q) : Decision (x < y)%Q.
Proof.
  destruct (Qlt_le_dec x y) as [Hlt | Hle]; [left | right]; auto using Qle_not_lt.
Defined.

(** A scene matches a query when it meets the region, is dated within the
    range and has a cloudy-pixel percentage strictly below 30. *)
Definition qualifies (svc : Service) (roi : Geometry) (start_date end_date : string)
  (s : Scene) : Prop :=
  intersects (footprint s) roi = true
  ∧ date_millis svc start_date ≤ time_start s < date_millis svc end_date
  ∧ (CLOUDY_PIXEL_PERCENTAGE s < 30)%Q.

#[global] Instance qualifies_dec svc roi start_date end_date s :
  Decision (qualifies svc roi start_date end_date s).
Proof. unfold qualifies. apply _. Defined.

(** The images a period's collection query matches. *)
Definition matching (svc : Service) (roi : Geometry) (start_date end_date : string)
  : list Scene :=
  filter (qualifies svc roi start_date end_date) (catalog svc).

(** What one scene contributes to the mosaic at a band and pixel: nothing
    where the quality band is masked or has bit 10 (cloud) or bit 11 (cirrus)
    set, the value divided by 10000 otherwise. *)
Definition clear_value (s : Scene) (name : string) (p : Pixel) : option Q :=
  qa ← bands s "QA60" p;
  if Z.testbit qa 10 || Z.testbit qa 11 then None
  else v ← bands s name p; Some (inject_Z v / 10000)%Q.

(** The mosaic of a period, as the specification words it. *)
Definition mosaic_pixel (svc : Service) (roi : Geometry) (start_date end_date : string)
  (name : string) (p : Pixel) : option Q :=
  if contains roi p then
    match omap (fun s => clear_value s name p) (matching svc roi start_date end_date) with
    | [] => None
    | vs => Some (median_of svc vs)
    end
  else None.

(** The three conditions of the change detector. *)
Definition gain_condition (water_t1 water_t2 : Band Z) : Band Z :=
  ee.And (ee.eq water_t1 0) (ee.eq water_t2 1).

Definition loss_condition (water_t1 water_t2 : Band Z) : Band Z :=
  ee.And (ee.eq water_t1 1) (ee.eq water_t2 0).

Definition persistent_condition (water_t1 water_t2 : Band Z) : Band Z :=
  ee.And (ee.eq water_t1 1) (ee.eq water_t2 1).

(** A pixel satisfies a condition when the test raster is non-zero there. *)
Definition satisfied (test : Band Z) (p : Pixel) : Prop :=
  ∃ t, px test p = Some t ∧ t ≠ 0.

(** [text] contains [part]. *)
Definition mentions (text part : string) : Prop :=
  ∃ before after, text = before ++ part ++ after.

Definition suggestion_period1 : string :=
  "Suggestion: Try a different month or expand the date range.".

Definition suggestion_period2 : string :=
  "Suggestion: Monsoon clouds might be blocking the view. Try 'November' or 'April'.".

(** The float a decoded count multiplies as. *)
Definition count_float (n : PyNum) : float :=
  match n with
  | PyInt z => float_of_Z z
  | PyFloat f => f
  end.

(** The histogram the handler reads out of the answer of the stats step. *)
Definition histogram_of (stats : gmap string (option (gmap string PyNum)))
  : option (gmap string PyNum) :=
  match stats !! "constant" with Some v => v | None => Some ∅ end.

Definition is_client_error (r : HttpResponse) : Prop := 400 ≤ status r < 500.

(** A body is malformed when it does not validate against the request model
    or when the geometry constructor refuses its geometry. *)
Definition malformed (svc : Service) (body : Json) : Prop :=
  AnalysisRequest_validate body = None
  ∨ ∃ request msg, AnalysisRequest_validate body = Some request
                   ∧ geometry_of svc (geojson request) = inl msg.

(** The service account is configured: both variables are set to non-empty
    values and the key file exists. *)
Definition configured (host : Host) (env : gmap string string) : Prop :=
  ∃ service_account key_file,
    env !! "GEE_SERVICE_ACCOUNT" = Some service_account ∧ service_account ≠ ""
    ∧ env !! "GEE_KEY_FILE" = Some key_file ∧ key_file ≠ ""
    ∧ path_exists host key_file = true.

(** The events every request starts with: the request is logged, then one
    size query is issued per period. *)
Definition request_logged (request : AnalysisRequest) : Event :=
  Log INFO ("Request: T1(" ++ date1_start request ++ ") vs T2("
            ++ date2_start request ++ ")").

Definition fetch_t1 (request : AnalysisRequest) : Event :=
  Remote (size_getInfo (date1_start request) (date1_end request)).

Definition fetch_t2 (request : AnalysisRequest) : Event :=
  Remote (size_getInfo (date2_start request) (date2_end request)).

(** The exceptions the body of the handler is expected to raise: any
    non-HTTP exception, or one of the two no-data NOT_FOUND exceptions. *)
Definition no_data_not_found (request : AnalysisRequest) (e : PyExc) : Prop :=
  e = HTTPException 404 (detail_period1 request)
  ∨ e = HTTPException 404 (detail_period2 request).

Definition plain (e : PyExc) : Prop := ∃ msg, e = Exception msg.

(** Every exception a computation raises satisfies [P]. *)
Definition raises_only {A} (P : PyExc → Prop) (m : M A) : Prop :=
  ∀ tr e tr', m tr = (Raise e, tr') → P e.

Definition plain_or_no_data (request : AnalysisRequest) (e : PyExc) : Prop :=
  plain e ∨ no_data_not_found request e.

(** ** Sample worlds, used to run the model on concrete inputs *)

Module Sample.

Definition roi : Geometry := [(0, 0); (0, 1); (1, 0); (1, 1)].

Definition polygon : gmap string Json :=
  {[ "type" := JString "Polygon";
     "coordinates" := JArray [JArray [JArray [JNumber 0; JNumber 0];
                                       JArray [JNumber 0; JNumber 2];
                                       JArray [JNumber 2; JNumber 2];
                                       JArray [JNumber 2; JNumber 0];
                                       JArray [JNumber 0; JNumber 0]]] ]}.

(** Accepts polygons only, all mapped to [roi]. *)
Definition polygons_only (geojson : gmap string Json) : string + Geometry :=
  match geojson !! "type" with
  | Some (JString t) =>
      if String.eqb t "Polygon" then inr roi else inl "Invalid GeoJSON geometry."
  | _ => inl "Invalid GeoJSON geometry."
  end.

Definition day : Z := 86400000.

Definition read_date (date : string) : Z :=
  if String.eqb date "2023-01-01" then 19358 * day
  else if String.eqb date "2023-02-01" then 19389 * day
  else if String.eqb date "2024-01-01" then 19723 * day
  else if String.eqb date "2024-02-01" then 19754 * day
  else 0.

Fixpoint insert_sorted (x : Q) (l : list Q) : list Q :=
  match l with
  | [] => [x]
  | y :: l' => if Qle_bool x y then x :: l else y :: insert_sorted x l'
  end.

(** The middle of the sorted inputs (the mean of the two middle ones for
    an even number of inputs). *)
Definition middle (vs : list Q) : Q :=
  let sorted := foldr insert_sorted [] vs in
  let n := length sorted in
  if Nat.even n
  then ((nth (n / 2 - 1) sorted 0 + nth (n / 2) sorted 0) / 2)%Q
  else nth (n / 2) sorted 0%Q.

(** Bands of a scene from the water pixels and the cloudy pixels. *)
Definition scene_bands (water cloudy : list Pixel) : Image Z :=
  fun name p =>
    if String.eqb name "QA60" then Some (if contains cloudy p then 1024 else 0)
    else if String.eqb name "B3" then Some (if contains water p then 1200 else 500)
    else if String.eqb name "B8" then Some (if contains water p then 300 else 2500)
    else None.

Definition scene_2023 : Scene :=
  mkScene roi (19370 * day) 10 (scene_bands [(0, 0); (1, 0)] []).

Definition scene_2023_overcast : Scene :=
  mkScene roi (19375 * day) 80 (scene_bands [] roi).

Definition scene_2024 : Scene :=
  mkScene roi (19730 * day) (25 # 2) (scene_bands [(0, 0); (0, 1); (1, 0)] []).

Definition scene_2024_hazy : Scene :=
  mkScene roi (19740 * day) 20 (scene_bands [(0, 0); (0, 1); (1, 0)] [(1, 1)]).

Definition count_of (h : gmap string PyNum) (key : string) : Z :=
  match h !! key with
  | Some (PyInt z) => z
  | _ => 0
  end.

(** Counts of the unmasked values of a raster over a region, keyed by the
    value; [None] when every pixel is masked. *)
Definition frequencyHistogram (b : Band Z) (region : Geometry)
  : option (gmap string PyNum) :=
  match omap (px b) region with
  | [] => None
  | vs => Some (foldr (fun v h => <[pretty v := PyInt (count_of h (pretty v) + 1)]> h)
                      ∅ vs)
  end.

Definition service : Service :=
  {| catalog := [scene_2023; scene_2023_overcast; scene_2024; scene_2024_hazy];
     date_millis := read_date;
     median_of := middle;
     geometry_of := polygons_only;
     fault := fun _ => None;
     url_format := fun b => "https://earthengine.example/maps/" ++ band_name b
                            ++ "/tiles/{z}/{x}/{y}";
     region_stats := fun b region => {[ band_name b := frequencyHistogram b region ]} |}.

(** The same service with an empty catalogue. *)
Definition service_no_images : Service :=
  {| catalog := [];
     date_millis := read_date;
     median_of := middle;
     geometry_of := polygons_only;
     fault := fun _ => None;
     url_format := url_format service;
     region_stats := region_stats service |}.

(** An empty catalogue, and the second remote call of a request fails. *)
Definition service_second_call_fails : Service :=
  {| catalog := [];
     date_millis := read_date;
     median_of := middle;
     geometry_of := polygons_only;
     fault := fun n => if (n =? 1)%nat then Some "Computation timed out." else None;
     url_format := url_format service;
     region_stats := region_stats service |}.

(** The first remote call of a request fails. *)
Definition service_first_call_fails : Service :=
  {| catalog := catalog service;
     date_millis := read_date;
     median_of := middle;
     geometry_of := polygons_only;
     fault := fun n => if (n =? 0)%nat then Some "Quota exceeded." else None;
     url_format := url_format service;
     region_stats := region_stats service |}.

Definition request : AnalysisRequest :=
  mkAnalysisRequest polygon "2023-01-01" "2023-02-01" "2024-01-01" "2024-02-01".

Definition body_of (geojson : Json) : Json :=
  JObject {[ "geojson" := geojson;
             "date1_start" := JString "2023-01-01";
             "date1_end" := JString "2023-02-01";
             "date2_start" := JString "2024-01-01";
             "date2_end" := JString "2024-02-01" ]}.

Definition body : Json := body_of (JObject polygon).

(** A body that validates (its [geojson] is a dict) with a geometry the
    constructor refuses. *)
Definition body_bad_geometry : Json := body_of (JObject ∅).

(** The request it validates to. *)
Definition request_bad_geometry : AnalysisRequest :=
  mkAnalysisRequest ∅ "2023-01-01" "2023-02-01" "2024-01-01" "2024-02-01".

(** A composite with equal green and near-infrared reflectance. *)
Definition image_even : Image Q :=
  fun name p =>
    if String.eqb name "B3" then Some (1 # 10)%Q
    else if String.eqb name "B8" then Some (1 # 10)%Q
    else None.

(** A host with a service account and a key file that cannot be read. *)
Definition host_bad_key : Host :=
  {| environ := {[ "GEE_SERVICE_ACCOUNT" := "hydro@project.iam.gserviceaccount.com" ]};
     dotenv := {[ "GEE_SERVICE_ACCOUNT" := "other@project.iam.gserviceaccount.com";
                  "GEE_KEY_FILE" := "key.json" ]};
     path_exists := fun path => String.eqb path "key.json";
     credentials_fault := fun _ _ => Some "Could not deserialize key data.";
     initialize_fault := fun _ => None |}.

(** A host whose service account variable is set to the empty string. *)
Definition host_empty_account : Host :=
  {| environ := {[ "GEE_SERVICE_ACCOUNT" := ""; "GEE_KEY_FILE" := "key.json" ]};
     dotenv := ∅;
     path_exists := fun path => String.eqb path "key.json";
     credentials_fault := fun _ _ => None;
     initialize_fault := fun _ => None |}.

End Sample.

(** ** The stages of a request *)

(** A scene is flagged at a pixel when its quality band is masked there or
    has bit 10 (cloud) or bit 11 (cirrus) set. *)
Definition flagged (s : Scene) (p : Pixel) : bool :=
  match bands s "QA60" p with
  | Some qa => Z.testbit qa 10 || Z.testbit qa 11
  | None => true
  end.

(** The composite line 65 builds for a period. *)
Definition composite (svc : Service) (roi : Geometry) (start_date end_date : string)
  : Image Q :=
  ee.clip (ee.median svc (ee.map (matching svc roi start_date end_date) mask_clouds)) roi.

(** The change raster lines 107 to 116 build for a request. *)
Definition change_raster (svc : Service) (roi : Geometry) (request : AnalysisRequest)
  : Band Z :=
  detect_change
    (classify_water (composite svc roi (date1_start request) (date1_end request)) 0)
    (classify_water (composite svc roi (date2_start request) (date2_end request)) 0).

(** Lines 131 to 141: the response assembled from the map id and the decoded
    answer of the stats step. *)
Definition respond (map_id : string) (answer : gmap string (option (gmap string PyNum)))
  : M AnalysisResponse :=
  let histogram :=
    match answer !! "constant" with Some v => v | None => Some ∅ end in
  gain <~ (n <~ dict_get histogram "1" (PyInt 0) ; mul_float n pixel_area_sqkm) ;
  loss <~ (n <~ dict_get histogram "2" (PyInt 0) ; mul_float n pixel_area_sqkm) ;
  persistent <~ (n <~ dict_get histogram "3" (PyInt 0) ; mul_float n pixel_area_sqkm) ;
  ret {| tile_url := map_id;
         stats := {| gain_sqkm := gain;
                     loss_sqkm := loss;
                     persistent_sqkm := persistent |} |}.

(** The count a histogram holds for a class, 0 for a class without a key. *)
Definition class_count (h : gmap string PyNum) (class : string) : PyNum :=
  default (PyInt 0) (h !! class).

(** An [int] count too large for a float. *)
Definition overflows (n : PyNum) : bool :=
  match n with
  | PyInt z => is_infinity (float_of_Z z)
  | PyFloat _ => false
  end.

(** The area reported for a class of a histogram. *)
Definition class_area_sqkm (h : gmap string PyNum) (class : string) : float :=
  (count_float (class_count h class) * pixel_area_sqkm)%float.

(** The events of a request served to the end. *)
Definition served (request : AnalysisRequest) : Trace :=
  [request_logged request; fetch_t1 request; fetch_t2 request;
   Call F_classify_water; Call F_classify_water; Call F_detect_change;
   Remote getMapId; Remote reduceRegion_getInfo].

(** What a request needs to be answered 200. *)
Definition succeeds (svc : Service) (request : AnalysisRequest) (roi : Geometry)
  (h : gmap string PyNum) : Prop :=
  geometry_of svc (geojson request) = inr roi
  ∧ (∀ n, (n < 4)%nat → fault svc n = None)
  ∧ matching svc roi (date1_start request) (date1_end request) ≠ []
  ∧ matching svc roi (date2_start request) (date2_end request) ≠ []
  ∧ histogram_of (region_stats svc (change_raster svc roi request) roi) = Some h
  ∧ ∀ class, class ∈ ["1"; "2"; "3"] → overflows (class_count h class) = false.

(** The overlay of lines 112 to 116 for any list of rules [(test, value)],
    applied in order on the constant 0 and self-masked. *)
Definition overlay (rules : list (Band Z * Z)) : Band Z :=
  ee.selfMask
    (foldl (fun image rule => ee.where_ image (fst rule) (snd rule))
           (ee.Image_const 0) rules).

(** The three rules of the change detector, in the order of the source. *)
Definition change_rules (water_t1 water_t2 : Band Z) : list (Band Z * Z) :=
  [(gain_condition water_t1 water_t2, 1);
   (loss_condition water_t1 water_t2, 2);
   (persistent_condition water_t1 water_t2, 3)].

(** Gain and loss exchanged. *)
Definition swap_class (class : Z) : Z :=
  if class =? 1 then 2 else if class =? 2 then 1 else class.

(** ** More sample worlds *)

Module Cases.

Definition with_catalog (svc : Service) (scenes : list Scene) : Service :=
  {| catalog := scenes;
     date_millis := date_millis svc;
     median_of := median_of svc;
     geometry_of := geometry_of svc;
     fault := fault svc;
     url_format := url_format svc;
     region_stats := region_stats svc |}.

(** The [n]-th remote call of a request fails with [msg]. *)
Definition failing_at (svc : Service) (n : nat) (msg : string) : Service :=
  {| catalog := catalog svc;
     date_millis := date_millis svc;
     median_of := median_of svc;
     geometry_of := geometry_of svc;
     fault := fun k => if (k =? n)%nat then Some msg else None;
     url_format := url_format svc;
     region_stats := region_stats svc |}.

(** The stats step always answers [answer]. *)
Definition answering (svc : Service) (answer : gmap string (option (gmap string PyNum)))
  : Service :=
  {| catalog := catalog svc;
     date_millis := date_millis svc;
     median_of := median_of svc;
     geometry_of := geometry_of svc;
     fault := fault svc;
     url_format := url_format svc;
     region_stats := fun _ _ => answer |}.

(** Only the hazy scene of 2024, flagged at pixel (1, 1). *)
Definition service_hazy : Service :=
  with_catalog Sample.service [Sample.scene_2024_hazy].

Definition service_fetch_fails : Service :=
  failing_at Sample.service 0 "Quota exceeded.".

Definition service_render_fails : Service :=
  failing_at Sample.service 2 "Tile service unavailable.".

Definition service_stats_fails : Service :=
  failing_at Sample.service 3 "User memory limit exceeded.".

(** The answer of the stats step has no "constant" entry. *)
Definition service_no_entry : Service := answering Sample.service ∅.

(** The answer of the stats step maps "constant" to [None]. *)
Definition service_null_histogram : Service :=
  answering Sample.service {[ "constant" := None ]}.

(** The stats step reports an infinite count for class 1. *)
Definition service_infinite_count : Service :=
  answering Sample.service {[ "constant" := Some {[ "1" := PyFloat infinity ]} ]}.

(** A host whose service account is named in the [.env] file and works. *)
Definition host_service_account : Host :=
  {| environ := ∅;
     dotenv := {[ "GEE_SERVICE_ACCOUNT" := "hydro@project.iam.gserviceaccount.com";
                  "GEE_KEY_FILE" := "key.json" ]};
     path_exists := fun path => String.eqb path "key.json";
     credentials_fault := fun _ _ => None;
     initialize_fault := fun _ => None |}.

End Cases.

(** ** Proof automation *)

(** The bit operations are kept folded by [simpl]. *)
#[local] Arguments Z.testbit : simpl never.
#[local] Arguments Z.land : simpl never.
#[local] Arguments Z.shiftl : simpl never.

(** Goal: an event differs from every event of an explicit trace. *)
Ltac absent_from_trace :=
  unfold request_logged, fetch_t1, fetch_t2;
  rewrite ?not_elem_of_cons; repeat split; try discriminate; apply not_elem_of_nil.

(** Hypothesis [H]: an event is in an explicit trace that has no such event. *)
Ltac no_such_event H :=
  rewrite ?elem_of_cons, ?elem_of_nil in H;
  repeat (destruct H as [H | H]; [discriminate H |]);
  first [contradiction | discriminate H].

(** * Properties *)

(** ** Pixel arithmetic *)

Lemma Qlt_bool_iff (x y : Q) : Qlt_bool x y = true ↔ (x < y)%Q.
Proof.
  unfold Qlt_bool. rewrite negb_true_iff.
  split.
  - intros H. apply Qnot_le_lt. intros Hle.
    apply Qle_bool_iff in Hle. congruence.
  - intros H. destruct (Qle_bool y x) eqn:E; [| reflexivity].
    apply Qle_bool_iff in E. exfalso. exact (Qlt_not_le _ _ H E).
Qed.

Lemma Qlt_bool_false_iff (x y : Q) : Qlt_bool x y = false ↔ (y <= x)%Q.
Proof.
  unfold Qlt_bool. rewrite negb_false_iff. apply Qle_bool_iff.
Qed.

(** A conjunction of two equality tests holds exactly where both rasters
    carry the tested values. *)
Lemma satisfied_And_eq (a b : Band Z) (x y : Z) (p : Pixel) :
  satisfied (ee.And (ee.eq a x) (ee.eq b y)) p ↔ px a p = Some x ∧ px b p = Some y.
Proof.
  unfold satisfied; simpl.
  destruct (px a p) as [u|], (px b p) as [v|]; simpl.
  - destruct (Z.eqb_spec u x), (Z.eqb_spec v y); simpl; split.
    all: try (intros [t [Ht Hn]]; injection Ht as <-; try lia).
    all: try (intros [Hu Hv]; congruence).
    + subst; auto.
    + intros _. exists 1. split; [reflexivity | lia].
  - split; [intros [t [Ht _]]; discriminate | intros [_ H]; discriminate].
  - split; [intros [t [Ht _]]; discriminate | intros [H _]; discriminate].
  - split; [intros [t [Ht _]]; discriminate | intros [H _]; discriminate].
Qed.

(** ** The change detector *)

(** C1. For any two water masks and any pixel: the gain (0→1), loss (1→0)
    and persistent (1→1) conditions are pairwise disjoint; the change raster
    carries class 1, 2 or 3 exactly where the corresponding condition holds;
    it carries no other value; and a pixel without water in either period
    (0→0) is masked. *)
Theorem detect_change_classes (water_t1 water_t2 : Band Z) (p : Pixel) :
  let gain := satisfied (gain_condition water_t1 water_t2) p in
  let loss := satisfied (loss_condition water_t1 water_t2) p in
  let persistent := satisfied (persistent_condition water_t1 water_t2) p in
  let class := px (detect_change water_t1 water_t2) p in
  (¬ (gain ∧ loss) ∧ ¬ (gain ∧ persistent) ∧ ¬ (loss ∧ persistent))
  ∧ (class = Some 1 ↔ gain)
  ∧ (class = Some 2 ↔ loss)
  ∧ (class = Some 3 ↔ persistent)
  ∧ (class = None ∨ class = Some 1 ∨ class = Some 2 ∨ class = Some 3)
  ∧ (px water_t1 p = Some 0 ∧ px water_t2 p = Some 0 → class = None).
Proof.
  cbv zeta. unfold gain_condition, loss_condition, persistent_condition.
  rewrite !satisfied_And_eq.
  unfold detect_change; simpl.
  destruct (px water_t1 p) as [u|], (px water_t2 p) as [v|]; simpl.
  - destruct (Z.eqb_spec u 0), (Z.eqb_spec u 1), (Z.eqb_spec v 0), (Z.eqb_spec v 1);
      subst; simpl; try lia.
    all: intuition congruence.
  - intuition congruence.
  - intuition congruence.
  - intuition congruence.
Qed.

(** The four transitions of two binary masks, run through the detector. *)
Example detect_change_table :
  let mask (v : Z) : Band Z := mkBand "water" (fun _ => Some v) in
  px (detect_change (mask 0) (mask 1)) (0, 0) = Some 1
  ∧ px (detect_change (mask 1) (mask 0)) (0, 0) = Some 2
  ∧ px (detect_change (mask 1) (mask 1)) (0, 0) = Some 3
  ∧ px (detect_change (mask 0) (mask 0)) (0, 0) = None.
Proof. repeat split. Qed.

(** ** The water classifier *)

(** The index image: the normalized difference of B3 and B8. *)
Lemma calculate_ndwi_px (image : Image Q) (p : Pixel) (x : Q) :
  px (calculate_ndwi image) p = Some x ↔
  ∃ green nir, image "B3" p = Some green ∧ image "B8" p = Some nir
               ∧ (0 <= green)%Q ∧ (0 <= nir)%Q ∧ ¬ (green + nir == 0)%Q
               ∧ x = ((green - nir) / (green + nir))%Q.
Proof.
  unfold calculate_ndwi; simpl.
  destruct (image "B3" p) as [g|], (image "B8" p) as [n|];
    try (split; [discriminate | intros (g' & n' & Hg & Hn & _); discriminate]).
  destruct (Qlt_bool g 0) eqn:Eg; simpl.
  { split; [discriminate |].
    intros (g' & n' & Hg & Hn & Hg0 & _). injection Hg as <-.
    apply Qlt_bool_iff in Eg. exfalso. exact (Qlt_not_le _ _ Eg Hg0). }
  destruct (Qlt_bool n 0) eqn:En; simpl.
  { split; [discriminate |].
    intros (g' & n' & Hg & Hn & _ & Hn0 & _). injection Hn as <-.
    apply Qlt_bool_iff in En. exfalso. exact (Qlt_not_le _ _ En Hn0). }
  apply Qlt_bool_false_iff in Eg, En.
  destruct (Qeq_bool (g + n) 0) eqn:Es.
  { split; [discriminate |].
    intros (g' & n' & Hg & Hn & _ & _ & Hs & _).
    injection Hg as <-. injection Hn as <-.
    apply Qeq_bool_iff in Es. contradiction. }
  split.
  - intros H. injection H as <-. exists g, n. repeat split; auto.
    intros Hs. apply Qeq_bool_iff in Hs. congruence.
  - intros (g' & n' & Hg & Hn & _ & _ & _ & ->).
    injection Hg as <-. injection Hn as <-. reflexivity.
Qed.

(** The mask is the index compared with the threshold. *)
Lemma classify_water_px (image : Image Q) (threshold : Q) (p : Pixel) :
  px (classify_water image threshold) p =
  match px (calculate_ndwi image) p with
  | Some x => Some (if decide (threshold < x)%Q then 1 else 0)
  | None => None
  end.
Proof.
  unfold classify_water; simpl.
  destruct (match image "B3" p with Some _ => _ | None => _ end) as [x|]; [| reflexivity].
  f_equal. destruct (decide (threshold < x)%Q) as [H | H].
  - apply Qlt_bool_iff in H. now rewrite H.
  - destruct (Qlt_bool threshold x) eqn:E; [| reflexivity].
    apply Qlt_bool_iff in E. contradiction.
Qed.

(** C7. The water classifier is a function of the composite alone (its type
    has no effect): its index image is the normalized difference of the
    green (B3) and near-infrared (B8) bands, its output is the comparison of
    that index with the threshold, hence a binary mask, it depends on the
    composite through these two bands only, and the default threshold is 0. *)
Theorem classify_water_spec (image : Image Q) (threshold : Q) (p : Pixel) :
  let ndwi := px (calculate_ndwi image) p in
  let water := px (classify_water image threshold) p in
  (∀ x, ndwi = Some x ↔
        ∃ green nir, image "B3" p = Some green ∧ image "B8" p = Some nir
                     ∧ (0 <= green)%Q ∧ (0 <= nir)%Q ∧ ¬ (green + nir == 0)%Q
                     ∧ x = ((green - nir) / (green + nir))%Q)
  ∧ water = match ndwi with
            | Some x => Some (if decide (threshold < x)%Q then 1 else 0)
            | None => None
            end
  ∧ (water = None ∨ water = Some 0 ∨ water = Some 1)
  ∧ (∀ image' : Image Q,
       image' "B3" p = image "B3" p → image' "B8" p = image "B8" p →
       px (classify_water image' threshold) p = water)
  ∧ threshold_default = 0%Q.
Proof.
  cbv zeta. split; [| split; [| split; [| split]]].
  - intros x. apply calculate_ndwi_px.
  - apply classify_water_px.
  - rewrite classify_water_px.
    destruct (px (calculate_ndwi image) p) as [x|]; [| now left].
    destruct (decide (threshold < x)%Q); auto.
  - intros image' H3 H8. unfold classify_water; simpl. now rewrite H3, H8.
  - reflexivity.
Qed.

(** C10. The comparison is strict: for every composite, a pixel is water
    exactly when its index is strictly above the threshold, and with the
    default threshold a pixel whose index is exactly 0 is non-water. *)
Theorem classify_water_strict (image : Image Q) (p : Pixel) (x : Q) :
  px (calculate_ndwi image) p = Some x →
  (∀ threshold, px (classify_water image threshold) p = Some 1 ↔ (threshold < x)%Q)
  ∧ ((x == 0)%Q → px (classify_water image threshold_default) p = Some 0).
Proof.
  intros Hx. split.
  - intros threshold. rewrite classify_water_px, Hx.
    destruct (decide (threshold < x)%Q) as [H | H]; split; intros;
      first [reflexivity | assumption | discriminate | contradiction].
  - intros H0. rewrite classify_water_px, Hx. unfold threshold_default.
    destruct (decide (0 < x)%Q) as [H | H]; [| reflexivity].
    rewrite H0 in H. exfalso. exact (Qlt_irrefl _ H).
Qed.

(** A composite whose green and near-infrared reflectances are equal has
    index 0 and is classified as non-water. *)
Lemma classify_water_strict_witness :
  px (calculate_ndwi Sample.image_even) (0, 0) = Some (((1 # 10) - (1 # 10)) / ((1 # 10) + (1 # 10)))%Q
  ∧ px (classify_water Sample.image_even threshold_default) (0, 0) = Some 0.
Proof.
  split; [reflexivity |].
  apply (classify_water_strict Sample.image_even (0, 0)
           (((1 # 10) - (1 # 10)) / ((1 # 10) + (1 # 10)))%Q); reflexivity.
Defined.

(** ** The mosaic builder *)

(** Testing one bit with a mask: [qa & (1 << n) == 0] reads bit [n]. *)
Lemma land_shiftl_eqb (qa n : Z) :
  0 ≤ n → (Z.land qa (Z.shiftl 1 n) =? 0) = negb (Z.testbit qa n).
Proof.
  intros Hn. rewrite Z.shiftl_1_l.
  destruct (Z.testbit qa n) eqn:Hbit; simpl.
  - apply Z.eqb_neq. intros H0.
    assert (Hb : Z.testbit (Z.land qa (2 ^ n)) n = true).
    { rewrite Z.land_spec, Hbit, Z.pow2_bits_true by lia. reflexivity. }
    rewrite H0, Z.bits_0 in Hb. discriminate.
  - apply Z.eqb_eq. apply Z.bits_inj'. intros m Hm.
    rewrite Z.land_spec, Z.bits_0, Z.pow2_bits_eqb by lia.
    destruct (Z.eqb_spec n m) as [-> | _].
    + now rewrite Hbit.
    + apply andb_false_r.
Qed.

(** What [mask_clouds] leaves of a scene at a band and pixel. *)
Lemma mask_clouds_px (s : Scene) (name : string) (p : Pixel) :
  mask_clouds (bands s) name p = clear_value s name p.
Proof.
  unfold mask_clouds, clear_value, ee.divide, ee.updateMask; simpl.
  destruct (bands s "QA60" p) as [qa|]; simpl; [| reflexivity].
  rewrite (land_shiftl_eqb qa 10), (land_shiftl_eqb qa 11) by lia.
  destruct (Z.testbit qa 10), (Z.testbit qa 11); simpl; try reflexivity;
    destruct (bands s name p); reflexivity.
Qed.

Lemma omap_mask_clouds (coll : list Scene) (name : string) (p : Pixel) :
  omap (fun image : Image Q => image name p) (ee.map coll mask_clouds)
  = omap (fun s => clear_value s name p) coll.
Proof.
  unfold ee.map. induction coll as [| s coll IH]; [reflexivity |].
  cbn [List.map omap list_omap]. rewrite mask_clouds_px, IH. reflexivity.
Qed.

(** A boolean filter and a decidable one select the same elements. *)
Lemma filter_reflect {A} (f : A → bool) (P : A → Prop) `{∀ x, Decision (P x)}
  (l : list A) :
  (∀ x, f x = true ↔ P x) → List.filter f l = filter P l.
Proof.
  intros Hf. induction l as [| x l IH]; [reflexivity |].
  cbn [List.filter]. rewrite filter_cons, IH.
  destruct (decide (P x)) as [HP | HP].
  - apply Hf in HP. now rewrite HP.
  - destruct (f x) eqn:E; [| reflexivity]. apply Hf in E. contradiction.
Qed.

Lemma filter_filter_andb {A} (f g : A → bool) (l : list A) :
  List.filter g (List.filter f l) = List.filter (fun x => f x && g x) l.
Proof.
  induction l as [| x l IH]; [reflexivity |].
  cbn [List.filter]. destruct (f x); simpl; [| exact IH].
  destruct (g x); now rewrite IH.
Qed.

(** The collection the code filters is the collection of matching scenes. *)
Lemma s2_matching (svc : Service) (roi : Geometry) (start_date end_date : string) :
  ee.filter
    (ee.filterDate svc
       (ee.filterBounds (ee.ImageCollection svc "COPERNICUS/S2_SR_HARMONIZED") roi)
       start_date end_date)
    (ee.Filter_lt "CLOUDY_PIXEL_PERCENTAGE" 30)
  = matching svc roi start_date end_date.
Proof.
  unfold ee.filter, ee.filterDate, ee.filterBounds, matching.
  change (ee.ImageCollection svc "COPERNICUS/S2_SR_HARMONIZED") with (catalog svc).
  rewrite !filter_filter_andb. apply filter_reflect.
  intros s. unfold qualifies.
  change (ee.Filter_lt "CLOUDY_PIXEL_PERCENTAGE" 30 s)
    with (Qlt_bool (CLOUDY_PIXEL_PERCENTAGE s) 30).
  rewrite !andb_true_iff, Z.leb_le, Z.ltb_lt, Qlt_bool_iff. tauto.
Qed.

(** A failing size query: one remote call, the error logged, the exception
    raised again as it is. *)
Lemma get_sentinel_mosaic_fault (svc : Service) (roi : Geometry)
  (start_date end_date : string) (tr : Trace) (msg : string) :
  fault svc (remote_calls tr) = Some msg →
  get_sentinel_mosaic svc roi start_date end_date tr
  = (Raise (Exception msg),
     (tr ++ [Remote (size_getInfo start_date end_date);
             Log ERROR ("Error fetching Sentinel data: " ++ msg)])%list).
Proof.
  intros Hf. unfold get_sentinel_mosaic, try_except, bind, remote.
  rewrite Hf. unfold logger_error, emit, raise; simpl.
  now rewrite <- app_assoc.
Qed.

(** An answered size query: the sentinel for an empty collection, the
    clipped median of the masked scenes otherwise. *)
Lemma get_sentinel_mosaic_ok (svc : Service) (roi : Geometry)
  (start_date end_date : string) (tr : Trace) :
  fault svc (remote_calls tr) = None →
  get_sentinel_mosaic svc roi start_date end_date tr
  = (Ok (match matching svc roi start_date end_date with
         | [] => None
         | s2 => Some (ee.clip (ee.median svc (ee.map s2 mask_clouds)) roi)
         end),
     (tr ++ [Remote (size_getInfo start_date end_date)])%list).
Proof.
  intros Hf. unfold get_sentinel_mosaic. rewrite s2_matching.
  unfold try_except, bind, remote. rewrite Hf.
  destruct (matching svc roi start_date end_date) as [| s l]; reflexivity.
Qed.

(** C4. The mosaic builder issues one size query over the scenes that meet
    the region, fall in the date range and have a cloudy-pixel percentage
    strictly below 30.  When the query is answered it returns the sentinel
    [None] (a value, not an exception) exactly when that size is zero, and
    otherwise a composite whose every pixel inside the region is the median of
    the values, divided by 10000, of the matching scenes whose quality band
    has bits 10 and 11 clear there, and is masked outside the region.  When
    the query fails the failure is raised, not turned into the sentinel. *)
Theorem get_sentinel_mosaic_spec (svc : Service) (roi : Geometry)
  (start_date end_date : string) (tr : Trace) :
  let images := matching svc roi start_date end_date in
  let issued := (tr ++ [Remote (size_getInfo start_date end_date)])%list in
  (∀ s, s ∈ images ↔ s ∈ catalog svc ∧ qualifies svc roi start_date end_date s)
  ∧ match fault svc (remote_calls tr) with
    | None =>
        ∃ result,
          get_sentinel_mosaic svc roi start_date end_date tr = (Ok result, issued)
          ∧ (result = None ↔ ee.size images = 0)
          ∧ (∀ composite, result = Some composite →
               ∀ name p, composite name p
                         = mosaic_pixel svc roi start_date end_date name p)
    | Some msg =>
        ∃ tr', get_sentinel_mosaic svc roi start_date end_date tr
               = (Raise (Exception msg), tr')
    end.
Proof.
  cbv zeta. split.
  { intros s. unfold matching. rewrite list_elem_of_filter. tauto. }
  destruct (fault svc (remote_calls tr)) as [msg |] eqn:Hf.
  { eexists. apply get_sentinel_mosaic_fault, Hf. }
  eexists. split; [apply get_sentinel_mosaic_ok, Hf |].
  split.
  - unfold ee.size.
    destruct (matching svc roi start_date end_date) as [| s l]; simpl.
    + tauto.
    + split; [discriminate | lia].
  - intros composite Hc name p. unfold mosaic_pixel.
    destruct (matching svc roi start_date end_date) as [| s l] eqn:Hm;
      [discriminate |].
    injection Hc as <-. unfold ee.clip, ee.median.
    rewrite <- (omap_mask_clouds (s :: l) name p). reflexivity.
Qed.

(** ** The no-data path of the handler *)

Lemma append_assoc (s1 s2 s3 : string) : (s1 ++ s2) ++ s3 = s1 ++ (s2 ++ s3).
Proof.
  induction s1 as [| c s1 IH]; [reflexivity |].
  change (String c ((s1 ++ s2) ++ s3) = String c (s1 ++ (s2 ++ s3))).
  now rewrite IH.
Qed.

Lemma detail_period1_text (request : AnalysisRequest) :
  mentions (detail_period1 request) "Period 1"
  ∧ mentions (detail_period1 request) suggestion_period1.
Proof.
  split.
  - exists "No clear images found for ",
      (" (" ++ date1_start request ++ " to " ++ date1_end request ++ "). "
       ++ newline ++ suggestion_period1).
    reflexivity.
  - exists ("No clear images found for Period 1 (" ++ date1_start request ++ " to "
            ++ date1_end request ++ "). " ++ newline), "".
    unfold detail_period1, suggestion_period1.
    rewrite !append_assoc. reflexivity.
Qed.

Lemma detail_period2_text (request : AnalysisRequest) :
  mentions (detail_period2 request) "Period 2"
  ∧ mentions (detail_period2 request) suggestion_period2.
Proof.
  split.
  - exists "No clear images found for ",
      (" (" ++ date2_start request ++ " to " ++ date2_end request ++ "). "
       ++ newline ++ suggestion_period2).
    reflexivity.
  - exists ("No clear images found for Period 2 (" ++ date2_start request ++ " to "
            ++ date2_end request ++ "). " ++ newline), "".
    unfold detail_period2, suggestion_period2.
    rewrite !append_assoc. reflexivity.
Qed.

(** The run of the handler up to the two sentinel checks, both size queries
    being answered. *)
Lemma analyze_change_no_data (svc : Service) (request : AnalysisRequest) (roi : Geometry) :
  geometry_of svc (geojson request) = inr roi →
  fault svc 0%nat = None → fault svc 1%nat = None →
  let images1 := matching svc roi (date1_start request) (date1_end request) in
  let images2 := matching svc roi (date2_start request) (date2_end request) in
  images1 = [] ∨ images2 = [] →
  analyze_change svc request []
  = (Raise (HTTPException 404 (match images1 with
                               | [] => detail_period1 request
                               | _ => detail_period2 request
                               end)),
     [request_logged request; fetch_t1 request; fetch_t2 request]).
Proof.
  intros Hgeo H0 H1 images1 images2 Hempty.
  unfold analyze_change, try_except, analyze_change_body, bind, logger_info, emit,
    ee.Geometry.
  rewrite Hgeo. unfold ret at 1. cbn [app].
  rewrite get_sentinel_mosaic_ok by exact H0. cbn [app].
  rewrite get_sentinel_mosaic_ok by exact H1. cbn [app].
  fold images1 images2.
  destruct images1 as [| s1 l1].
  - reflexivity.
  - destruct Hempty as [Hempty | Hempty]; [discriminate |].
    rewrite Hempty. reflexivity.
Qed.

(** The run of the handler when the second size query fails. *)
Lemma analyze_change_second_fetch_fails (svc : Service) (request : AnalysisRequest)
  (roi : Geometry) (msg : string) :
  geometry_of svc (geojson request) = inr roi →
  fault svc 0%nat = None → fault svc 1%nat = Some msg →
  analyze_change svc request []
  = (Raise (HTTPException 500 msg),
     [request_logged request; fetch_t1 request; fetch_t2 request;
      Log ERROR ("Error fetching Sentinel data: " ++ msg);
      Log ERROR ("Server Error: " ++ msg)]).
Proof.
  intros Hgeo H0 H1.
  unfold analyze_change, try_except, analyze_change_body, bind, logger_info, emit,
    ee.Geometry.
  rewrite Hgeo. unfold ret at 1. cbn [app].
  rewrite get_sentinel_mosaic_ok by exact H0. cbn [app].
  rewrite (get_sentinel_mosaic_fault svc roi _ _ _ msg) by exact H1.
  reflexivity.
Qed.

(** C2, as the code has it. When both size queries are answered and at
    least one of them matches no image, the handler raises a 404 whose detail
    names the first period without images (Period 1 when its query matched
    none, Period 2 otherwise) and contains that period's suggestion; the two
    suggestions differ; and the run consists of the request log and the two
    size queries only: no classification, no change detection, no rendering
    and no statistics. *)
Theorem not_found_when_no_images (svc : Service) (request : AnalysisRequest)
  (roi : Geometry) :
  geometry_of svc (geojson request) = inr roi →
  fault svc 0%nat = None → fault svc 1%nat = None →
  let images1 := matching svc roi (date1_start request) (date1_end request) in
  let images2 := matching svc roi (date2_start request) (date2_end request) in
  images1 = [] ∨ images2 = [] →
  ∃ detail tr,
    analyze_change svc request [] = (Raise (HTTPException 404 detail), tr)
    ∧ (images1 = [] →
       detail = detail_period1 request
       ∧ mentions detail "Period 1" ∧ mentions detail suggestion_period1)
    ∧ (images1 ≠ [] →
       detail = detail_period2 request
       ∧ mentions detail "Period 2" ∧ mentions detail suggestion_period2)
    ∧ suggestion_period1 ≠ suggestion_period2
    ∧ (∀ f, Call f ∉ tr)
    ∧ (Remote getMapId ∉ tr) ∧ (Remote reduceRegion_getInfo ∉ tr).
Proof.
  intros Hgeo H0 H1 images1 images2 Hempty.
  eexists _, _. split.
  { apply (analyze_change_no_data svc request roi Hgeo H0 H1 Hempty). }
  fold images1.
  split; [| split; [| split; [| split; [| split]]]].
  - intros ->. split; [reflexivity | apply detail_period1_text].
  - intros Hne. destruct images1; [congruence |].
    split; [reflexivity | apply detail_period2_text].
  - discriminate.
  - intros f. absent_from_trace.
  - absent_from_trace.
  - absent_from_trace.
Qed.

(** With an empty catalogue both periods are without images: the answer is
    the 404 of Period 1. *)
Lemma not_found_when_no_images_witness :
  ∃ detail tr,
    analyze_change Sample.service_no_images Sample.request []
    = (Raise (HTTPException 404 detail), tr)
    ∧ detail = detail_period1 Sample.request
    ∧ ∀ f, Call f ∉ tr.
Proof.
  destruct (not_found_when_no_images Sample.service_no_images Sample.request Sample.roi)
    as (detail & tr & Hrun & H1 & _ & _ & Hcall & _).
  - reflexivity.
  - reflexivity.
  - reflexivity.
  - left. reflexivity.
  - exists detail, tr. split; [exact Hrun |].
    split; [| exact Hcall]. apply H1. reflexivity.
Defined.

(** C2, as stated, fails: the query of Period 1 is answered and matches no
    image, the query of Period 2 raises, and the handler answers 500. *)
Lemma not_found_counterexample :
  ¬ (∀ (svc : Service) (request : AnalysisRequest) (roi : Geometry),
       geometry_of svc (geojson request) = inr roi →
       fault svc 0%nat = None
       ∧ matching svc roi (date1_start request) (date1_end request) = [] →
       ∃ detail tr,
         analyze_change svc request [] = (Raise (HTTPException 404 detail), tr)).
Proof.
  intros H.
  destruct (H Sample.service_second_call_fails Sample.request Sample.roi)
    as (detail & tr & Hrun).
  - reflexivity.
  - split; reflexivity.
  - rewrite (analyze_change_second_fetch_fails _ _ Sample.roi "Computation timed out.")
      in Hrun by reflexivity.
    discriminate.
Qed.

(** ** Order of the two fetches *)

(** C9. When the query of Period 1 is answered and matches no image, the
    query of Period 2 is issued all the same, before the handler raises
    anything; and when the second query is answered too, and matches no image
    either, the 404 raised is the one of Period 1. *)
Theorem second_fetch_unconditional (svc : Service) (request : AnalysisRequest)
  (roi : Geometry) :
  geometry_of svc (geojson request) = inr roi →
  fault svc 0%nat = None →
  matching svc roi (date1_start request) (date1_end request) = [] →
  (∃ e rest,
     analyze_change svc request []
     = (Raise e, ([request_logged request; fetch_t1 request; fetch_t2 request]
                  ++ rest)%list))
  ∧ (fault svc 1%nat = None →
     matching svc roi (date2_start request) (date2_end request) = [] →
     analyze_change svc request []
     = (Raise (HTTPException 404 (detail_period1 request)),
        [request_logged request; fetch_t1 request; fetch_t2 request])).
Proof.
  intros Hgeo H0 Hempty. split.
  - destruct (fault svc 1%nat) as [msg |] eqn:H1.
    + eexists _, _.
      rewrite (analyze_change_second_fetch_fails svc request roi msg Hgeo H0 H1).
      reflexivity.
    + eexists _, [].
      rewrite (analyze_change_no_data svc request roi Hgeo H0 H1 (or_introl Hempty)).
      reflexivity.
  - intros H1 _.
    rewrite (analyze_change_no_data svc request roi Hgeo H0 H1 (or_introl Hempty)).
    now rewrite Hempty.
Qed.

Lemma second_fetch_unconditional_witness :
  analyze_change Sample.service_no_images Sample.request []
  = (Raise (HTTPException 404 (detail_period1 Sample.request)),
     [request_logged Sample.request; fetch_t1 Sample.request; fetch_t2 Sample.request]).
Proof.
  apply (second_fetch_unconditional Sample.service_no_images Sample.request Sample.roi);
    reflexivity.
Defined.

(** ** Exceptions *)

Section RaisesOnly.

Context {A B : Type} (P : PyExc → Prop).

Lemma raises_only_ret (a : A) : raises_only P (ret a).
Proof. intros tr e tr' H. discriminate. Qed.

Lemma raises_only_raise (e : PyExc) : P e → raises_only P (@raise A e).
Proof. intros HP tr e' tr' H. injection H as <- _. exact HP. Qed.

Lemma raises_only_bind (m : M A) (k : A → M B) :
  raises_only P m → (∀ a, raises_only P (k a)) → raises_only P (bind m k).
Proof.
  intros Hm Hk tr e tr' H. unfold bind in H.
  destruct (m tr) as [[a | e0] tr0] eqn:Em.
  - exact (Hk a _ _ _ H).
  - injection H as <- _. exact (Hm _ _ _ Em).
Qed.

Lemma raises_only_weaken (Q : PyExc → Prop) (m : M A) :
  (∀ e, Q e → P e) → raises_only Q m → raises_only P m.
Proof. intros HQP Hm tr e tr' H. apply HQP. exact (Hm _ _ _ H). Qed.

Lemma raises_only_remote (svc : Service) (call : RemoteCall) (answer : A) :
  raises_only plain (remote svc call answer).
Proof.
  intros tr e tr' H. unfold remote in H.
  destruct (fault svc (remote_calls tr)) as [msg |]; [| discriminate].
  injection H as <- _. now exists msg.
Qed.

Lemma raises_only_invoke (f : Func) (a : A) : raises_only P (invoke f a).
Proof. intros tr e tr' H. discriminate. Qed.

End RaisesOnly.

Lemma raises_only_emit (P : PyExc → Prop) (ev : Event) : raises_only P (emit ev).
Proof. intros tr e tr' H. discriminate. Qed.

(** The mosaic builder raises nothing but what its remote call raised. *)
Lemma get_sentinel_mosaic_raises (svc : Service) (roi : Geometry)
  (start_date end_date : string) :
  raises_only plain (get_sentinel_mosaic svc roi start_date end_date).
Proof.
  intros tr e tr' H.
  destruct (fault svc (remote_calls tr)) as [msg |] eqn:Hf.
  - rewrite (get_sentinel_mosaic_fault svc roi _ _ tr msg Hf) in H.
    injection H as <- _. now exists msg.
  - rewrite (get_sentinel_mosaic_ok svc roi _ _ tr Hf) in H. discriminate.
Qed.

Lemma dict_get_raises (d : option (gmap string PyNum)) (key : string) (default : PyNum) :
  raises_only plain (dict_get d key default).
Proof.
  intros tr e tr' H. destruct d; [discriminate |].
  injection H as <- _. now eexists.
Qed.

Lemma mul_float_raises (n : PyNum) (f : float) : raises_only plain (mul_float n f).
Proof.
  intros tr e tr' H. destruct n as [z | x]; [| discriminate].
  unfold mul_float in H. destruct (is_infinity (float_of_Z z)); [| discriminate].
  injection H as <- _. now eexists.
Qed.

(** The body of the handler raises either a non-HTTP exception or one of the
    two no-data NOT_FOUND exceptions. *)
Lemma analyze_change_body_raises (svc : Service) (request : AnalysisRequest) :
  raises_only (plain_or_no_data request) (analyze_change_body svc request).
Proof.
  assert (Hplain : ∀ e, plain e → plain_or_no_data request e) by (intros e He; now left).
  unfold analyze_change_body.
  apply raises_only_bind; [apply raises_only_emit | intros _].
  apply raises_only_bind.
  { unfold ee.Geometry. destruct (geometry_of svc (geojson request)) as [msg | roi].
    - apply raises_only_raise. left. now exists msg.
    - apply raises_only_ret. }
  intros roi.
  apply raises_only_bind;
    [apply (raises_only_weaken _ _ _ Hplain), get_sentinel_mosaic_raises | intros img_t1].
  apply raises_only_bind;
    [apply (raises_only_weaken _ _ _ Hplain), get_sentinel_mosaic_raises | intros img_t2].
  apply raises_only_bind.
  { destruct img_t1; [apply raises_only_ret |].
    apply raises_only_raise. right. now left. }
  intros image1.
  apply raises_only_bind.
  { destruct img_t2; [apply raises_only_ret |].
    apply raises_only_raise. right. now right. }
  intros image2.
  do 3 (apply raises_only_bind; [apply raises_only_invoke | intros ?]).
  do 2 (apply raises_only_bind;
        [apply (raises_only_weaken _ _ _ Hplain), raises_only_remote | intros ?]).
  do 3 (apply raises_only_bind;
        [apply (raises_only_weaken _ _ _ Hplain), raises_only_bind;
         [apply dict_get_raises | intros ?; apply mul_float_raises]
        | intros ?]).
  apply raises_only_ret.
Qed.

(** C5. Whatever the body of the handler does, the handler passes a result
    through, passes a no-data NOT_FOUND through, and turns every other
    exception into a 500 whose detail is the message of the exception, after
    logging that message; nothing else leaves the handler.  In the mosaic
    builder a failing remote call is issued once, logged, and raised again
    unchanged. *)
Theorem exceptions_surface (svc : Service) (request : AnalysisRequest) (tr : Trace) :
  match analyze_change_body svc request tr with
  | (Ok response, tr') => analyze_change svc request tr = (Ok response, tr')
  | (Raise (Exception msg), tr') =>
      analyze_change svc request tr
      = (Raise (HTTPException 500 msg),
         (tr' ++ [Log ERROR ("Server Error: " ++ msg)])%list)
  | (Raise (HTTPException status_code detail), tr') =>
      no_data_not_found request (HTTPException status_code detail)
      ∧ analyze_change svc request tr = (Raise (HTTPException status_code detail), tr')
  end
  ∧ ∀ roi start_date end_date msg,
      fault svc (remote_calls tr) = Some msg →
      get_sentinel_mosaic svc roi start_date end_date tr
      = (Raise (Exception msg),
         (tr ++ [Remote (size_getInfo start_date end_date);
                 Log ERROR ("Error fetching Sentinel data: " ++ msg)])%list).
Proof.
  split.
  - pose proof (analyze_change_body_raises svc request tr) as Hraises.
    unfold analyze_change, try_except.
    destruct (analyze_change_body svc request tr) as [[response | e] tr'].
    + reflexivity.
    + specialize (Hraises e tr' eq_refl).
      destruct e as [status_code detail | msg].
      * split; [| reflexivity].
        destruct Hraises as [[msg Hmsg] | Hnd]; [discriminate | exact Hnd].
      * reflexivity.
  - intros roi start_date end_date msg Hf.
    apply get_sentinel_mosaic_fault, Hf.
Qed.

(** A quota error on the first size query: logged by the mosaic builder and
    raised again. *)
Lemma exceptions_surface_witness :
  get_sentinel_mosaic Sample.service_first_call_fails Sample.roi
    "2023-01-01" "2023-02-01" []
  = (Raise (Exception "Quota exceeded."),
     [Remote (size_getInfo "2023-01-01" "2023-02-01");
      Log ERROR "Error fetching Sentinel data: Quota exceeded."]).
Proof.
  apply (proj2 (exceptions_surface Sample.service_first_call_fails Sample.request [])).
  reflexivity.
Defined.

(** The same error, as the client sees it. *)
Example quota_error_response :
  post_analyze Sample.service_first_call_fails Sample.body []
  = (HttpError 500 "Quota exceeded.",
     [Log INFO "Request: T1(2023-01-01) vs T2(2024-01-01)";
      Remote (size_getInfo "2023-01-01" "2023-02-01");
      Log ERROR "Error fetching Sentinel data: Quota exceeded.";
      Log ERROR "Server Error: Quota exceeded."]).
Proof. vm_compute. reflexivity. Qed.

(** ** Malformed requests *)

(** A body that does not validate is answered 422 without running the
    handler. *)
Lemma post_analyze_invalid (svc : Service) (body : Json) :
  AnalysisRequest_validate body = None → post_analyze svc body [] = (Http422, []).
Proof. intros H. unfold post_analyze. now rewrite H. Qed.

(** A geometry the constructor refuses fails the request on line 93. *)
Lemma post_analyze_bad_geometry (svc : Service) (body : Json)
  (request : AnalysisRequest) (msg : string) :
  AnalysisRequest_validate body = Some request →
  geometry_of svc (geojson request) = inl msg →
  post_analyze svc body []
  = (HttpError 500 msg, [request_logged request; Log ERROR ("Server Error: " ++ msg)]).
Proof.
  intros Hv Hgeo. unfold post_analyze. rewrite Hv.
  unfold analyze_change, try_except, analyze_change_body, bind, logger_info, emit,
    ee.Geometry.
  rewrite Hgeo. reflexivity.
Qed.

(** C8, as the code has it. A malformed request fails before any remote call
    is issued: a body that does not validate against the request model is
    answered with the client error 422 and the handler does not run; a body
    that validates but whose geometry the constructor refuses is answered 500
    with the message of the exception. *)
Theorem malformed_request_fails (svc : Service) (body : Json) :
  malformed svc body →
  ∃ response tr,
    post_analyze svc body [] = (response, tr)
    ∧ remote_calls tr = 0%nat
    ∧ (∀ call, Remote call ∉ tr)
    ∧ (AnalysisRequest_validate body = None →
       response = Http422 ∧ is_client_error response ∧ tr = [])
    ∧ (∀ request msg,
         AnalysisRequest_validate body = Some request →
         geometry_of svc (geojson request) = inl msg →
         response = HttpError 500 msg).
Proof.
  intros [Hv | (request & msg & Hv & Hgeo)].
  - exists Http422, []. rewrite (post_analyze_invalid svc body Hv).
    split; [reflexivity |]. split; [reflexivity |].
    split; [intros call; apply not_elem_of_nil |].
    split.
    + intros _. split; [reflexivity |]. split; [| reflexivity].
      unfold is_client_error. simpl. lia.
    + intros request msg Hv'. congruence.
  - eexists _, _. rewrite (post_analyze_bad_geometry svc body request msg Hv Hgeo).
    split; [reflexivity |]. split; [reflexivity |].
    split; [intros call; absent_from_trace |].
    split.
    + intros Hv'. congruence.
    + intros request' msg' Hv' Hgeo'. congruence.
Qed.

Lemma malformed_request_fails_witness :
  ∃ tr, post_analyze Sample.service Sample.body_bad_geometry []
        = (HttpError 500 "Invalid GeoJSON geometry.", tr)
        ∧ remote_calls tr = 0%nat.
Proof.
  destruct (malformed_request_fails Sample.service Sample.body_bad_geometry)
    as (response & tr & Hrun & Hcalls & _ & _ & Hgeo).
  - right. exists Sample.request_bad_geometry, "Invalid GeoJSON geometry.".
    split; reflexivity.
  - exists tr. split; [| exact Hcalls].
    rewrite Hrun. f_equal. apply (Hgeo Sample.request_bad_geometry); reflexivity.
Defined.

(** C8, as stated, fails: a body whose [geojson] is an empty dict validates,
    the geometry constructor refuses it, and the answer is a 500, which is
    not a client error. *)
Lemma malformed_request_counterexample :
  ¬ (∀ (svc : Service) (body : Json),
       malformed svc body →
       is_client_error (fst (post_analyze svc body []))
       ∧ remote_calls (snd (post_analyze svc body [])) = 0%nat).
Proof.
  intros H.
  destruct (H Sample.service Sample.body_bad_geometry) as [Hclient _].
  - right. exists Sample.request_bad_geometry, "Invalid GeoJSON geometry.".
    split; reflexivity.
  - rewrite (post_analyze_bad_geometry Sample.service Sample.body_bad_geometry
               Sample.request_bad_geometry "Invalid GeoJSON geometry."
               eq_refl eq_refl) in Hclient.
    unfold is_client_error in Hclient. simpl in Hclient. lia.
Qed.

(** ** Area statistics *)

Lemma bind_Ok {A B} (m : M A) (k : A → M B) (tr tr' : Trace) (b : B) :
  bind m k tr = (Ok b, tr') →
  ∃ a tr1, m tr = (Ok a, tr1) ∧ k a tr1 = (Ok b, tr').
Proof.
  unfold bind. intros H.
  destruct (m tr) as [[a | e] tr1]; [| discriminate].
  now exists a, tr1.
Qed.

Lemma remote_Ok {A} (svc : Service) (call : RemoteCall) (answer a : A)
  (tr tr' : Trace) :
  remote svc call answer tr = (Ok a, tr') → a = answer.
Proof.
  unfold remote. intros H.
  destruct (fault svc (remote_calls tr)); [discriminate |].
  now injection H as <- _.
Qed.

Lemma invoke_Ok {A} (f : Func) (a a' : A) (tr tr' : Trace) :
  invoke f a tr = (Ok a', tr') → a' = a.
Proof. intros H. now injection H as <- _. Qed.

(** A successful run of the handler is a successful run of its body. *)
Lemma analyze_change_Ok (svc : Service) (request : AnalysisRequest)
  (tr tr' : Trace) (response : AnalysisResponse) :
  analyze_change svc request tr = (Ok response, tr') →
  analyze_change_body svc request tr = (Ok response, tr').
Proof.
  unfold analyze_change, try_except. intros H.
  destruct (analyze_change_body svc request tr) as [[r | e] tr1]; [exact H |].
  destruct e; discriminate.
Qed.

(** The pixel area is the float 0.0001. *)
Lemma pixel_area_sqkm_value : pixel_area_sqkm = 0.0001%float.
Proof. reflexivity. Qed.

(** The area of one class: the count of the class, 0 when the class is not
    in the histogram, times the pixel area. *)
Lemma class_area (histogram : option (gmap string PyNum)) (key : string)
  (tr tr' : Trace) (area : float) :
  bind (dict_get histogram key (PyInt 0)) (fun n => mul_float n pixel_area_sqkm) tr
  = (Ok area, tr') →
  ∃ h, histogram = Some h
       ∧ area = (count_float (default (PyInt 0) (h !! key)) * 0.0001)%float.
Proof.
  intros H. apply bind_Ok in H as (n & tr1 & Hget & Hmul).
  destruct histogram as [h |]; [| discriminate].
  exists h. split; [reflexivity |].
  injection Hget as <- _.
  rewrite pixel_area_sqkm_value in Hmul.
  destruct (h !! key) as [[z | x] |]; simpl in *.
  - unfold mul_float in Hmul.
    destruct (is_infinity (float_of_Z z)); [discriminate |].
    now injection Hmul as <- _.
  - now injection Hmul as <- _.
  - now injection Hmul as <- _.
Qed.

(** C3. In every success response, each of the three areas is the pixel
    count of its class in the histogram the stats step returned, as a float,
    times 0.0001, the value of [(10 * 10) / 1e6]; a class without a key in
    the histogram has area 0.  The three fields are floats of the response
    record, so none can be null or missing. *)
Theorem area_conversion (svc : Service) (request : AnalysisRequest)
  (tr tr' : Trace) (response : AnalysisResponse) :
  analyze_change svc request tr = (Ok response, tr') →
  ∃ roi water_t1 water_t2 histogram,
    geometry_of svc (geojson request) = inr roi
    ∧ histogram_of (region_stats svc (detect_change water_t1 water_t2) roi)
      = Some histogram
    ∧ ∀ class area,
        (class, area) ∈ [("1", gain_sqkm (stats response));
                         ("2", loss_sqkm (stats response));
                         ("3", persistent_sqkm (stats response))] →
        area = (count_float (default (PyInt 0) (histogram !! class)) * 0.0001)%float
        ∧ (histogram !! class = None → area = 0%float).
Proof.
  intros H. apply analyze_change_Ok in H. unfold analyze_change_body in H.
  apply bind_Ok in H as (_ & tr0 & _ & H).
  apply bind_Ok in H as (roi & tr1 & Hroi & H).
  apply bind_Ok in H as (img_t1 & tr2 & _ & H).
  apply bind_Ok in H as (img_t2 & tr3 & _ & H).
  apply bind_Ok in H as (image1 & tr4 & _ & H).
  apply bind_Ok in H as (image2 & tr5 & _ & H).
  apply bind_Ok in H as (water_t1 & tr6 & _ & H).
  apply bind_Ok in H as (water_t2 & tr7 & _ & H).
  apply bind_Ok in H as (change & tr8 & Hchange & H).
  apply bind_Ok in H as (map_id & tr9 & _ & H).
  apply bind_Ok in H as (answer & tr10 & Hstats & H).
  apply bind_Ok in H as (gain & tr11 & Hgain & H).
  apply bind_Ok in H as (loss & tr12 & Hloss & H).
  apply bind_Ok in H as (persistent & tr13 & Hpersistent & H).
  injection H as <- _.
  apply invoke_Ok in Hchange as ->. apply remote_Ok in Hstats as ->.
  apply class_area in Hgain as (h & Hh & Hgain).
  apply class_area in Hloss as (h2 & Hh2 & Hloss).
  apply class_area in Hpersistent as (h3 & Hh3 & Hpersistent).
  assert (h2 = h) as -> by congruence. assert (h3 = h) as -> by congruence.
  exists roi, water_t1, water_t2, h.
  split.
  { unfold ee.Geometry in Hroi.
    destruct (geometry_of svc (geojson request)); [discriminate |].
    now injection Hroi as <- _. }
  split; [exact Hh |].
  intros class area Hin. simpl in Hin.
  rewrite !elem_of_cons, elem_of_nil in Hin.
  assert (Harea : area
                  = (count_float (default (PyInt 0) (h !! class)) * 0.0001)%float).
  { destruct Hin as [Hin | [Hin | [Hin | []]]]; injection Hin as -> ->; assumption. }
  split; [exact Harea |].
  intros Hnone. rewrite Harea, Hnone. reflexivity.
Qed.

(** A run on the sample service: one pixel gained, none lost, two
    persistent. *)
Lemma area_conversion_witness :
  ∃ response tr',
    analyze_change Sample.service Sample.request [] = (Ok response, tr')
    ∧ stats response = mkStats 0.0001 0 0.0002
    ∧ ∃ roi water_t1 water_t2 histogram,
        geometry_of Sample.service (geojson Sample.request) = inr roi
        ∧ histogram_of (region_stats Sample.service (detect_change water_t1 water_t2) roi)
          = Some histogram
        ∧ ∀ class area,
            (class, area) ∈ [("1", gain_sqkm (stats response));
                             ("2", loss_sqkm (stats response));
                             ("3", persistent_sqkm (stats response))] →
            area = (count_float (default (PyInt 0) (histogram !! class)) * 0.0001)%float
            ∧ (histogram !! class = None → area = 0%float).
Proof.
  eexists _, _. split; [vm_compute; reflexivity |].
  split; [reflexivity |].
  eapply (area_conversion Sample.service Sample.request []).
  vm_compute. reflexivity.
Defined.

(** ** Authentication at start-up *)

Lemma truthy_Some (v : option string) :
  truthy v = true ↔ ∃ s, v = Some s ∧ s ≠ "".
Proof.
  destruct v as [s |]; simpl.
  - rewrite negb_true_iff. destruct (String.eqb_spec s "") as [-> | Hne]; split.
    + discriminate.
    + intros (s' & Hs & Hne). congruence.
    + intros _. now exists s.
    + reflexivity.
  - split; [discriminate | intros (s & Hs & _); discriminate].
Qed.

(** The condition of line 20 says that the service account is configured. *)
Lemma service_account_configured_iff (host : Host) (env : gmap string string) :
  service_account_configured host
    (os_getenv env "GEE_SERVICE_ACCOUNT") (os_getenv env "GEE_KEY_FILE") = true
  ↔ configured host env.
Proof.
  unfold service_account_configured, configured, os_getenv.
  rewrite !andb_true_iff, !truthy_Some. split.
  - intros [[(sa & Hsa & Hsa') (kf & Hkf & Hkf')] Hex].
    rewrite Hkf in Hex. exists sa, kf. auto.
  - intros (sa & kf & Hsa & Hsa' & Hkf & Hkf' & Hex).
    rewrite Hkf. repeat split; eauto.
Qed.

(** C6. Importing the module always yields the application: no exception of
    the bootstrap aborts start-up, each one is logged as "Authentication
    Failed".  The service-account credentials are built exactly when the
    service account is configured (both variables set to a non-empty value and
    the key file present), and the default initialization runs exactly
    otherwise.  When the service account is configured and its credentials are
    built, the client is initialized with these credentials; the run is then
    the credentials, the initialization with them and its log, or the error
    log of the step that failed.  When it is not configured the run is the
    default initialization and its log, or its error log. *)
Theorem authentication_bootstrap (host : Host) :
  let env := load_dotenv host in
  ∃ app tr,
    import_main host [] = (Ok app, tr)
    ∧ (Call F_ServiceAccountCredentials ∈ tr ↔ configured host env)
    ∧ (Remote (Initialize None) ∈ tr ↔ ¬ configured host env)
    ∧ (∀ credentials, Remote (Initialize (Some credentials)) ∈ tr →
         configured host env
         ∧ env !! "GEE_SERVICE_ACCOUNT" = Some credentials.1
         ∧ env !! "GEE_KEY_FILE" = Some credentials.2)
    ∧ match authenticate_body host env [] with
      | (Ok _, tr') => tr = tr'
      | (Raise e, tr') =>
          tr = (tr' ++ [Log ERROR ("Authentication Failed: " ++ str e)])%list
      end
    ∧ (∀ service_account key_file,
         env !! "GEE_SERVICE_ACCOUNT" = Some service_account → service_account ≠ "" →
         env !! "GEE_KEY_FILE" = Some key_file → key_file ≠ "" →
         path_exists host key_file = true →
         match credentials_fault host service_account key_file with
         | Some msg =>
             tr = [Call F_ServiceAccountCredentials;
                   Log ERROR ("Authentication Failed: " ++ msg)]
         | None =>
             Remote (Initialize (Some (service_account, key_file))) ∈ tr
             ∧ match initialize_fault host (Some (service_account, key_file)) with
               | Some msg =>
                   tr = [Call F_ServiceAccountCredentials;
                         Remote (Initialize (Some (service_account, key_file)));
                         Log ERROR ("Authentication Failed: " ++ msg)]
               | None =>
                   tr = [Call F_ServiceAccountCredentials;
                         Remote (Initialize (Some (service_account, key_file)));
                         Log INFO "Authentication: Service Account Initialized"]
               end
         end)
    ∧ (¬ configured host env →
       match initialize_fault host None with
       | Some msg =>
           tr = [Remote (Initialize None);
                 Log ERROR ("Authentication Failed: " ++ msg)]
       | None =>
           tr = [Remote (Initialize None);
                 Log INFO "Authentication: Default Google Cloud Auth Initialized"]
       end).
Proof.
  cbv zeta. set (env := load_dotenv host).
  pose proof (service_account_configured_iff host env) as Hconf.
  unfold import_main, authenticate, try_except, authenticate_body, bind.
  fold env. unfold os_getenv in *.
  destruct (service_account_configured host _ _) eqn:Hc.
  - assert (Hyes : configured host env) by (now apply Hconf).
    destruct Hyes as (sa & kf & Hsa & Hsa' & Hkf & Hkf' & Hex).
    rewrite Hsa, Hkf. cbn [default from_option id].
    unfold ServiceAccountCredentials, ee_Initialize, bind, emit, logger_info,
      logger_error, raise, ret.
    cbn [app].
    destruct (credentials_fault host sa kf) as [msg |] eqn:Hcf; cbn [app];
      [| destruct (initialize_fault host (Some (sa, kf))) as [msg |] eqn:Hif].
    all: cbn; eexists _, _; split; [reflexivity |].
    all: rewrite ?elem_of_cons, ?elem_of_nil.
    all: split; [split; [intros _; now apply Hconf | intros _; now left] |].
    all: split; [split; [intros H; no_such_event H
                        | intros H; exfalso; apply H; now apply Hconf] |].
    all: split;
      [intros credentials H; rewrite ?elem_of_cons, ?elem_of_nil in H;
       (split; [now apply Hconf |]);
       repeat (destruct H as [H | H]; [try discriminate H |]);
       try contradiction; try discriminate H;
       injection H as ->; split; reflexivity |].
    all: split; [reflexivity |].
    all: split; [| intros Hn; exfalso; apply Hn; now apply Hconf].
    all: intros sa' kf' E1 _ E2 _ _; injection E1 as <-; injection E2 as <-.
    + rewrite Hcf. reflexivity.
    + rewrite Hcf, Hif. split; [| reflexivity].
      rewrite !elem_of_cons. auto.
    + rewrite Hcf, Hif. split; [| reflexivity].
      rewrite !elem_of_cons. auto.
  - assert (Hno : ¬ configured host env).
    { intros Hx. apply Hconf in Hx. congruence. }
    unfold ee_Initialize, bind, emit, logger_info, logger_error, raise, ret.
    cbn [app].
    destruct (initialize_fault host None) as [msg |].
    all: cbn; eexists _, _; split; [reflexivity |].
    all: rewrite ?elem_of_cons, ?elem_of_nil.
    all: split; [split; [intros H; no_such_event H
                        | intros H; contradiction] |].
    all: split; [split; [intros _; exact Hno | intros _; now left] |].
    all: split; [intros credentials H; no_such_event H |].
    all: split; [reflexivity |].
    all: split; [| intros _; reflexivity].
    all: intros sa' kf' E1 N1 E2 N2 Hex; exfalso; apply Hno.
    all: exists sa', kf'; auto.
Qed.

(** A host whose service account works: the client is initialized with the
    credentials of the account named in the [.env] file. *)
Lemma authentication_bootstrap_witness :
  ∃ app,
    import_main Cases.host_service_account []
    = (Ok app,
       [Call F_ServiceAccountCredentials;
        Remote (Initialize (Some ("hydro@project.iam.gserviceaccount.com", "key.json")));
        Log INFO "Authentication: Service Account Initialized"]).
Proof.
  destruct (authentication_bootstrap Cases.host_service_account)
    as (app & tr & Hrun & _ & _ & _ & _ & Hsa & _).
  exists app. rewrite Hrun. f_equal.
  apply (Hsa "hydro@project.iam.gserviceaccount.com" "key.json");
    first [reflexivity | discriminate].
Defined.

(** An unreadable key file: the failure is logged, the default credentials
    are not tried, and the application is still created. *)
Example bootstrap_bad_key :
  import_main Sample.host_bad_key []
  = (Ok [mkCORSMiddleware ["*"] true ["*"] ["*"];
         mkCORSMiddleware ["*"] true ["*"] ["*"]],
     [Call F_ServiceAccountCredentials;
      Log ERROR "Authentication Failed: Could not deserialize key data."]).
Proof. vm_compute. reflexivity. Qed.

(** A service account set to the empty string counts as not configured. *)
Example bootstrap_empty_account :
  snd (import_main Sample.host_empty_account [])
  = [Remote (Initialize None);
     Log INFO "Authentication: Default Google Cloud Auth Initialized"].
Proof. vm_compute. reflexivity. Qed.

(** The sample run of the endpoint, from the body to the response. *)
Example post_analyze_sample :
  post_analyze Sample.service Sample.body []
  = (Http200 {| tile_url := "https://earthengine.example/maps/constant/tiles/{z}/{x}/{y}";
                stats := mkStats 0.0001 0 0.0002 |},
     [Log INFO "Request: T1(2023-01-01) vs T2(2024-01-01)";
      Remote (size_getInfo "2023-01-01" "2023-02-01");
      Remote (size_getInfo "2024-01-01" "2024-02-01");
      Call F_classify_water; Call F_classify_water; Call F_detect_change;
      Remote getMapId; Remote reduceRegion_getInfo]).
Proof. vm_compute. reflexivity. Qed.

(** * Further properties of the code *)

(** ** Thresholds and indices *)

(** X1. Raising the threshold never adds water: a pixel classified as water
    at a threshold is water at every lower threshold, and whether a pixel is
    masked does not depend on the threshold. *)
Theorem classify_water_monotone (image : Image Q) (low high : Q) (p : Pixel) :
  (low <= high)%Q →
  (px (classify_water image high) p = Some 1 → px (classify_water image low) p = Some 1)
  ∧ (px (classify_water image high) p = None ↔ px (classify_water image low) p = None).
Proof.
  intros Hle. rewrite !classify_water_px.
  destruct (px (calculate_ndwi image) p) as [x |]; [| tauto].
  split; [| split; discriminate].
  destruct (decide (high < x)%Q) as [Hh | Hh]; [| discriminate].
  intros _. destruct (decide (low < x)%Q) as [Hl | Hl]; [reflexivity |].
  exfalso. apply Hl. lra.
Qed.

Lemma classify_water_monotone_witness :
  px (classify_water Sample.image_even (1 # 2)) (0, 0) = None
  ↔ px (classify_water Sample.image_even 0) (0, 0) = None.
Proof.
  apply (classify_water_monotone Sample.image_even 0 (1 # 2) (0, 0)).
  vm_compute. discriminate.
Defined.

(** The index of a pixel lies between -1 and 1. *)
Lemma calculate_ndwi_range (image : Image Q) (p : Pixel) (x : Q) :
  px (calculate_ndwi image) p = Some x → (-1 <= x <= 1)%Q.
Proof.
  intros Hx. apply calculate_ndwi_px in Hx
    as (g & n & _ & _ & Hg & Hn & Hsum & ->).
  assert (Hpos : (0 < g + n)%Q).
  { destruct (Qlt_le_dec 0 (g + n)) as [H | H]; [exact H |].
    exfalso. apply Hsum. lra. }
  split.
  - apply Qle_shift_div_l; [exact Hpos | lra].
  - apply Qle_shift_div_r; [exact Hpos | lra].
Qed.

(** X2. The water index of a pixel, where it is defined, lies between -1 and
    1; so a threshold of 1 or more classifies no pixel as water and a
    threshold below -1 classifies every pixel with an index as water. *)
Theorem ndwi_threshold_range (image : Image Q) (p : Pixel) (x : Q) :
  px (calculate_ndwi image) p = Some x →
  (-1 <= x <= 1)%Q
  ∧ (∀ threshold, (1 <= threshold)%Q → px (classify_water image threshold) p = Some 0)
  ∧ (∀ threshold, (threshold < -1)%Q → px (classify_water image threshold) p = Some 1).
Proof.
  intros Hx. pose proof (calculate_ndwi_range image p x Hx) as [Hlow Hhigh].
  split; [split; assumption |]. split.
  - intros threshold Ht. rewrite classify_water_px, Hx.
    destruct (decide (threshold < x)%Q) as [H | H]; [| reflexivity].
    exfalso. lra.
  - intros threshold Ht. rewrite classify_water_px, Hx.
    destruct (decide (threshold < x)%Q) as [H | H]; [reflexivity |].
    exfalso. apply H. lra.
Qed.

Lemma ndwi_threshold_range_witness :
  px (classify_water Sample.image_even 1) (0, 0) = Some 0
  ∧ px (classify_water Sample.image_even (-2)) (0, 0) = Some 1.
Proof.
  destruct (ndwi_threshold_range Sample.image_even (0, 0)
              (((1 # 10) - (1 # 10)) / ((1 # 10) + (1 # 10)))%Q eq_refl)
    as (_ & Hhigh & Hlow).
  split; [apply Hhigh | apply Hlow]; vm_compute; congruence.
Defined.

(** ** From two composites to the change raster *)

(** X3. The class of a pixel, read off the two water indices: gain where
    only the second index is above 0, loss where only the first is, persistent
    where both are, masked where neither is; and masked wherever one of the
    two indices is masked. *)
Theorem change_by_index (img_t1 img_t2 : Image Q) (p : Pixel) :
  px (detect_change (classify_water img_t1 0) (classify_water img_t2 0)) p
  = match px (calculate_ndwi img_t1) p, px (calculate_ndwi img_t2) p with
    | Some x1, Some x2 =>
        if decide (0 < x1)%Q
        then (if decide (0 < x2)%Q then Some 3 else Some 2)
        else (if decide (0 < x2)%Q then Some 1 else None)
    | _, _ => None
    end.
Proof.
  unfold detect_change, ee.selfMask, ee.where_, ee.And, ee.eq, ee.Image_const.
  cbn [px band_name]. rewrite !classify_water_px.
  destruct (px (calculate_ndwi img_t1) p) as [x1 |],
           (px (calculate_ndwi img_t2) p) as [x2 |];
    repeat destruct (decide _); reflexivity.
Qed.

(** X4. Comparing a water mask with itself shows no change: every pixel of
    the change raster is persistent (where the mask is 1) or masked, never a
    gain or a loss. *)
Theorem detect_change_same_mask (water : Band Z) (p : Pixel) :
  let class := px (detect_change water water) p in
  (class = Some 3 ↔ px water p = Some 1)
  ∧ (class = None ↔ px water p ≠ Some 1)
  ∧ class ≠ Some 1 ∧ class ≠ Some 2.
Proof.
  cbv zeta. unfold detect_change; simpl.
  destruct (px water p) as [v |]; simpl.
  - destruct (Z.eqb_spec v 0), (Z.eqb_spec v 1); subst; simpl; try lia.
    all: repeat split; try congruence; try discriminate.
    all: try (intros H; exfalso; apply H; reflexivity).
  - repeat split; congruence.
Qed.

(** ** What stays masked *)

(** The composite a successful fetch returns. *)
Lemma get_sentinel_mosaic_composite (svc : Service) (roi : Geometry)
  (start_date end_date : string) (tr tr' : Trace) (image : Image Q) :
  get_sentinel_mosaic svc roi start_date end_date tr = (Ok (Some image), tr') →
  image = composite svc roi start_date end_date
  ∧ matching svc roi start_date end_date ≠ [].
Proof.
  intros H. destruct (fault svc (remote_calls tr)) as [msg |] eqn:Hf.
  - rewrite (get_sentinel_mosaic_fault svc roi _ _ tr msg Hf) in H. discriminate.
  - rewrite (get_sentinel_mosaic_ok svc roi _ _ tr Hf) in H. unfold composite.
    destruct (matching svc roi start_date end_date) as [| s l]; [discriminate |].
    injection H as <- _. split; [reflexivity | discriminate].
Qed.

Lemma composite_px (svc : Service) (roi : Geometry) (start_date end_date : string)
  (name : string) (p : Pixel) :
  composite svc roi start_date end_date name p
  = mosaic_pixel svc roi start_date end_date name p.
Proof.
  unfold composite, mosaic_pixel, ee.clip, ee.median.
  now rewrite omap_mask_clouds.
Qed.

Lemma clear_value_flagged (s : Scene) (name : string) (p : Pixel) :
  flagged s p = true → clear_value s name p = None.
Proof.
  unfold flagged, clear_value. destruct (bands s "QA60" p) as [qa |]; simpl.
  - intros ->. reflexivity.
  - reflexivity.
Qed.

Lemma omap_clear_value_flagged (coll : list Scene) (name : string) (p : Pixel) :
  (∀ s, s ∈ coll → flagged s p = true) →
  omap (fun s => clear_value s name p) coll = [].
Proof.
  induction coll as [| s coll IH]; intros H; [reflexivity |].
  cbn [omap list_omap]. rewrite clear_value_flagged by (apply H; left).
  apply IH. intros s' Hs'. apply H. now right.
Qed.

(** A masked water mask masks the change raster, on either side. *)
Lemma detect_change_masked (water other : Band Z) (p : Pixel) :
  px water p = None →
  px (detect_change water other) p = None ∧ px (detect_change other water) p = None.
Proof.
  intros H. unfold detect_change; simpl. rewrite H.
  destruct (px other p) as [v |]; simpl.
  - destruct (v =? 0), (v =? 1); split; reflexivity.
  - split; reflexivity.
Qed.

(** X5. A pixel outside the region, or flagged (cloud, cirrus or masked
    quality band) in every matching scene of a period, is masked in every band
    of the period's composite, in its water mask whatever the threshold, and
    in the change raster whatever the other period shows. *)
Theorem masked_pixels_stay_masked (svc : Service) (roi : Geometry)
  (start_date end_date : string) (tr tr' : Trace) (image : Image Q) (p : Pixel) :
  get_sentinel_mosaic svc roi start_date end_date tr = (Ok (Some image), tr') →
  contains roi p = false
  ∨ (∀ s, s ∈ matching svc roi start_date end_date → flagged s p = true) →
  (∀ name, image name p = None)
  ∧ ∀ threshold other,
      px (classify_water image threshold) p = None
      ∧ px (detect_change (classify_water image threshold) other) p = None
      ∧ px (detect_change other (classify_water image threshold)) p = None.
Proof.
  intros Hrun Hp. apply get_sentinel_mosaic_composite in Hrun as [-> _].
  assert (Hmasked : ∀ name, composite svc roi start_date end_date name p = None).
  { intros name. rewrite composite_px. unfold mosaic_pixel.
    destruct Hp as [Hout | Hflag].
    - now rewrite Hout.
    - rewrite (omap_clear_value_flagged _ name p Hflag).
      now destruct (contains roi p). }
  split; [exact Hmasked |].
  intros threshold other.
  assert (Hwater : px (classify_water (composite svc roi start_date end_date) threshold) p
                   = None).
  { unfold classify_water; simpl. now rewrite (Hmasked "B3"). }
  split; [exact Hwater |]. now apply detect_change_masked.
Qed.

(** The pixel (1, 1) is flagged in the only scene of the hazy service. *)
Lemma masked_pixels_stay_masked_witness :
  ∃ image,
    fst (get_sentinel_mosaic Cases.service_hazy Sample.roi "2024-01-01" "2024-02-01" [])
    = Ok (Some image)
    ∧ image "B3" (1, 1) = None
    ∧ px (classify_water image 0) (1, 1) = None.
Proof.
  eexists. split; [reflexivity |].
  destruct (masked_pixels_stay_masked Cases.service_hazy Sample.roi
              "2024-01-01" "2024-02-01" [] _ _ (1, 1) eq_refl) as [Hband Hwater].
  - right. intros s Hs.
    change (s ∈ [Sample.scene_2024_hazy]) in Hs.
    apply list_elem_of_singleton in Hs as ->. reflexivity.
  - split; [apply Hband | apply (Hwater 0%Q (ee.Image_const 0))].
Defined.

(** ** Runs of the handler, stage by stage *)

Lemma remote_answered {A} (svc : Service) (call : RemoteCall) (answer : A)
  (tr : Trace) (n : nat) :
  remote_calls tr = n → fault svc n = None →
  remote svc call answer tr = (Ok answer, (tr ++ [Remote call])%list).
Proof. intros <- Hf. unfold remote. now rewrite Hf. Qed.

Lemma remote_faulted {A} (svc : Service) (call : RemoteCall) (answer : A)
  (tr : Trace) (n : nat) (msg : string) :
  remote_calls tr = n → fault svc n = Some msg →
  remote svc call answer tr = (Raise (Exception msg), (tr ++ [Remote call])%list).
Proof. intros <- Hf. unfold remote. now rewrite Hf. Qed.

(** The body of the handler is the fetch of both periods followed by the
    rendering, the stats step and the response. *)
Lemma analyze_change_body_fetched (svc : Service) (request : AnalysisRequest)
  (roi : Geometry) :
  geometry_of svc (geojson request) = inr roi →
  fault svc 0%nat = None → fault svc 1%nat = None →
  matching svc roi (date1_start request) (date1_end request) ≠ [] →
  matching svc roi (date2_start request) (date2_end request) ≠ [] →
  analyze_change_body svc request []
  = bind (remote svc getMapId (url_format svc (change_raster svc roi request)))
      (fun map_id =>
         bind (remote svc reduceRegion_getInfo
                 (region_stats svc (change_raster svc roi request) roi))
           (fun answer => respond map_id answer))
      [request_logged request; fetch_t1 request; fetch_t2 request;
       Call F_classify_water; Call F_classify_water; Call F_detect_change].
Proof.
  intros Hgeo H0 H1 Hm1 Hm2.
  unfold analyze_change_body, change_raster, composite.
  unfold bind at 1, logger_info, emit. cbn [app].
  unfold bind at 1, ee.Geometry. rewrite Hgeo. unfold ret at 1.
  unfold bind at 1. rewrite get_sentinel_mosaic_ok by exact H0. cbn [app].
  unfold bind at 1. rewrite get_sentinel_mosaic_ok by exact H1. cbn [app].
  destruct (matching svc roi (date1_start request) (date1_end request))
    as [| s1 l1]; [congruence |].
  destruct (matching svc roi (date2_start request) (date2_end request))
    as [| s2 l2]; [congruence |].
  reflexivity.
Qed.

Lemma bind_trace {A B} (m : M A) (k : A → M B) :
  (∀ tr, snd (m tr) = tr) → (∀ a tr, snd (k a tr) = tr) →
  ∀ tr, snd (bind m k tr) = tr.
Proof.
  intros Hm Hk tr. unfold bind. specialize (Hm tr).
  destruct (m tr) as [[a | e] tr1]; simpl in *; subst; [apply Hk | reflexivity].
Qed.

Lemma dict_get_trace (d : option (gmap string PyNum)) (key : string) (default : PyNum)
  (tr : Trace) :
  snd (dict_get d key default tr) = tr.
Proof. destruct d; reflexivity. Qed.

Lemma mul_float_trace (n : PyNum) (f : float) (tr : Trace) :
  snd (mul_float n f tr) = tr.
Proof.
  destruct n as [z | x]; [| reflexivity].
  unfold mul_float. destruct (is_infinity (float_of_Z z)); reflexivity.
Qed.

(** The response assembly emits nothing. *)
Lemma respond_trace (map_id : string)
  (answer : gmap string (option (gmap string PyNum))) (tr : Trace) :
  snd (respond map_id answer tr) = tr.
Proof.
  revert tr. unfold respond.
  repeat (apply bind_trace;
          [apply bind_trace; [apply dict_get_trace | intros ?; apply mul_float_trace]
          | intros ?]).
  reflexivity.
Qed.

(** The response assembly succeeds exactly on a histogram whose three
    counts have a float. *)
Lemma respond_Ok (map_id : string)
  (answer : gmap string (option (gmap string PyNum))) (tr : Trace)
  (h : gmap string PyNum) :
  histogram_of answer = Some h →
  (∀ class, class ∈ ["1"; "2"; "3"] → overflows (class_count h class) = false) →
  respond map_id answer tr
  = (Ok {| tile_url := map_id;
           stats := {| gain_sqkm := class_area_sqkm h "1";
                       loss_sqkm := class_area_sqkm h "2";
                       persistent_sqkm := class_area_sqkm h "3" |} |}, tr).
Proof.
  intros Hh Hfin. unfold histogram_of in Hh. unfold respond. rewrite Hh.
  assert (Hone : ∀ class tr0, class ∈ ["1"; "2"; "3"] →
            bind (dict_get (Some h) class (PyInt 0))
              (fun n => mul_float n pixel_area_sqkm) tr0
            = (Ok (class_area_sqkm h class), tr0)).
  { intros class tr0 Hin. specialize (Hfin class Hin).
    unfold bind, dict_get, ret, class_area_sqkm, class_count, default in *.
    destruct (h !! class) as [[z | x] |]; unfold mul_float; simpl in *.
    - now rewrite Hfin.
    - reflexivity.
    - reflexivity. }
  unfold bind at 1. rewrite Hone by (rewrite !elem_of_cons; auto).
  unfold bind at 1. rewrite Hone by (rewrite !elem_of_cons; auto).
  unfold bind at 1. rewrite Hone by (rewrite !elem_of_cons; auto).
  reflexivity.
Qed.

(** The handler on a body that reached the response assembly. *)
Lemma analyze_change_rendered (svc : Service) (request : AnalysisRequest)
  (roi : Geometry) :
  geometry_of svc (geojson request) = inr roi →
  (∀ n, (n < 4)%nat → fault svc n = None) →
  matching svc roi (date1_start request) (date1_end request) ≠ [] →
  matching svc roi (date2_start request) (date2_end request) ≠ [] →
  analyze_change svc request []
  = match respond (url_format svc (change_raster svc roi request))
            (region_stats svc (change_raster svc roi request) roi)
            (served request) with
    | (Ok response, tr) => (Ok response, tr)
    | (Raise e, tr) => analyze_change_except e tr
    end.
Proof.
  intros Hgeo Hf Hm1 Hm2.
  assert (H0 : fault svc 0%nat = None) by (apply Hf; lia).
  assert (H1 : fault svc 1%nat = None) by (apply Hf; lia).
  assert (H2 : fault svc 2%nat = None) by (apply Hf; lia).
  assert (H3 : fault svc 3%nat = None) by (apply Hf; lia).
  unfold analyze_change, try_except.
  rewrite (analyze_change_body_fetched svc request roi Hgeo H0 H1 Hm1 Hm2).
  unfold bind at 1.
  rewrite (remote_answered svc getMapId _ _ 2) by first [reflexivity | assumption].
  cbn [app].
  unfold bind at 1.
  rewrite (remote_answered svc reduceRegion_getInfo _ _ 3)
    by first [reflexivity | assumption].
  reflexivity.
Qed.

Lemma analyze_change_bad_geometry (svc : Service) (request : AnalysisRequest)
  (msg : string) :
  geometry_of svc (geojson request) = inl msg →
  analyze_change svc request []
  = (Raise (HTTPException 500 msg),
     [request_logged request; Log ERROR ("Server Error: " ++ msg)]).
Proof.
  intros Hgeo.
  unfold analyze_change, try_except, analyze_change_body, bind, logger_info, emit,
    ee.Geometry.
  rewrite Hgeo. reflexivity.
Qed.

Lemma analyze_change_first_fetch_fails (svc : Service) (request : AnalysisRequest)
  (roi : Geometry) (msg : string) :
  geometry_of svc (geojson request) = inr roi →
  fault svc 0%nat = Some msg →
  analyze_change svc request []
  = (Raise (HTTPException 500 msg),
     [request_logged request; fetch_t1 request;
      Log ERROR ("Error fetching Sentinel data: " ++ msg);
      Log ERROR ("Server Error: " ++ msg)]).
Proof.
  intros Hgeo H0.
  unfold analyze_change, try_except, analyze_change_body, bind, logger_info, emit,
    ee.Geometry.
  rewrite Hgeo. unfold ret at 1. cbn [app].
  rewrite (get_sentinel_mosaic_fault svc roi _ _ _ msg) by exact H0.
  reflexivity.
Qed.

Lemma analyze_change_render_fails (svc : Service) (request : AnalysisRequest)
  (roi : Geometry) (msg : string) :
  geometry_of svc (geojson request) = inr roi →
  fault svc 0%nat = None → fault svc 1%nat = None →
  matching svc roi (date1_start request) (date1_end request) ≠ [] →
  matching svc roi (date2_start request) (date2_end request) ≠ [] →
  fault svc 2%nat = Some msg →
  analyze_change svc request []
  = (Raise (HTTPException 500 msg),
     [request_logged request; fetch_t1 request; fetch_t2 request;
      Call F_classify_water; Call F_classify_water; Call F_detect_change;
      Remote getMapId; Log ERROR ("Server Error: " ++ msg)]).
Proof.
  intros Hgeo H0 H1 Hm1 Hm2 H2.
  unfold analyze_change, try_except.
  rewrite (analyze_change_body_fetched svc request roi Hgeo H0 H1 Hm1 Hm2).
  unfold bind at 1.
  rewrite (remote_faulted svc getMapId _ _ 2 msg) by first [reflexivity | assumption].
  reflexivity.
Qed.

Lemma analyze_change_stats_fails (svc : Service) (request : AnalysisRequest)
  (roi : Geometry) (msg : string) :
  geometry_of svc (geojson request) = inr roi →
  fault svc 0%nat = None → fault svc 1%nat = None →
  matching svc roi (date1_start request) (date1_end request) ≠ [] →
  matching svc roi (date2_start request) (date2_end request) ≠ [] →
  fault svc 2%nat = None → fault svc 3%nat = Some msg →
  analyze_change svc request []
  = (Raise (HTTPException 500 msg),
     (served request ++ [Log ERROR ("Server Error: " ++ msg)])%list).
Proof.
  intros Hgeo H0 H1 Hm1 Hm2 H2 H3.
  unfold analyze_change, try_except.
  rewrite (analyze_change_body_fetched svc request roi Hgeo H0 H1 Hm1 Hm2).
  unfold bind at 1.
  rewrite (remote_answered svc getMapId _ _ 2) by first [reflexivity | assumption].
  cbn [app]. unfold bind at 1.
  rewrite (remote_faulted svc reduceRegion_getInfo _ _ 3 msg)
    by first [reflexivity | assumption].
  reflexivity.
Qed.

Lemma respond_raises (map_id : string)
  (answer : gmap string (option (gmap string PyNum))) :
  raises_only plain (respond map_id answer).
Proof.
  unfold respond.
  do 3 (apply raises_only_bind;
        [apply raises_only_bind;
         [apply dict_get_raises | intros ?; apply mul_float_raises]
        | intros ?]).
  apply raises_only_ret.
Qed.

(** Whatever the response assembly does, it adds no event; when it raises,
    the handler adds its error log. *)
Lemma respond_cases (map_id : string)
  (answer : gmap string (option (gmap string PyNum))) (tr : Trace) :
  (∃ response, respond map_id answer tr = (Ok response, tr))
  ∨ (∃ msg, respond map_id answer tr = (Raise (Exception msg), tr)).
Proof.
  pose proof (respond_trace map_id answer tr) as Htr.
  pose proof (respond_raises map_id answer tr) as Hraises.
  destruct (respond map_id answer tr) as [[response | e] tr']; simpl in Htr; subst tr'.
  - left. now exists response.
  - right. destruct (Hraises e tr eq_refl) as [msg ->]. now exists msg.
Qed.

(** ** Failures of the remote calls *)

(** X6. When the size query of Period 1 fails, the request ends there: the
    query of Period 2 is never issued (one remote call in all), the error is
    logged by the mosaic builder and by the handler, and the answer is a 500
    carrying the message. *)
Theorem first_fetch_failure_stops (svc : Service) (request : AnalysisRequest)
  (roi : Geometry) (msg : string) :
  geometry_of svc (geojson request) = inr roi →
  fault svc 0%nat = Some msg →
  ∃ tr,
    analyze_change svc request [] = (Raise (HTTPException 500 msg), tr)
    ∧ remote_calls tr = 1%nat
    ∧ tr = [request_logged request; fetch_t1 request;
            Log ERROR ("Error fetching Sentinel data: " ++ msg);
            Log ERROR ("Server Error: " ++ msg)].
Proof.
  intros Hgeo H0. eexists.
  rewrite (analyze_change_first_fetch_fails svc request roi msg Hgeo H0).
  repeat split.
Qed.

Lemma first_fetch_failure_stops_witness :
  ∃ tr,
    analyze_change Cases.service_fetch_fails Sample.request []
    = (Raise (HTTPException 500 "Quota exceeded."), tr)
    ∧ remote_calls tr = 1%nat.
Proof.
  destruct (first_fetch_failure_stops Cases.service_fetch_fails Sample.request
              Sample.roi "Quota exceeded." eq_refl eq_refl) as (tr & Hrun & Hn & _).
  now exists tr.
Defined.

(** X7. With both periods fetched, a failure of the map request ends the
    request before the stats step (three remote calls), and a failure of the
    stats step ends it after the map was issued (four remote calls, the tile
    URL is dropped); both are answered 500 with the message, logged once. *)
Theorem render_or_stats_failure (svc : Service) (request : AnalysisRequest)
  (roi : Geometry) (msg : string) :
  geometry_of svc (geojson request) = inr roi →
  fault svc 0%nat = None → fault svc 1%nat = None →
  matching svc roi (date1_start request) (date1_end request) ≠ [] →
  matching svc roi (date2_start request) (date2_end request) ≠ [] →
  (fault svc 2%nat = Some msg →
   analyze_change svc request []
   = (Raise (HTTPException 500 msg),
      [request_logged request; fetch_t1 request; fetch_t2 request;
       Call F_classify_water; Call F_classify_water; Call F_detect_change;
       Remote getMapId; Log ERROR ("Server Error: " ++ msg)]))
  ∧ (fault svc 2%nat = None → fault svc 3%nat = Some msg →
     analyze_change svc request []
     = (Raise (HTTPException 500 msg),
        (served request ++ [Log ERROR ("Server Error: " ++ msg)])%list)).
Proof.
  intros Hgeo H0 H1 Hm1 Hm2. split.
  - intros H2. now apply (analyze_change_render_fails svc request roi).
  - intros H2 H3. now apply (analyze_change_stats_fails svc request roi).
Qed.

Lemma render_or_stats_failure_witness :
  analyze_change Cases.service_render_fails Sample.request []
  = (Raise (HTTPException 500 "Tile service unavailable."),
     [request_logged Sample.request; fetch_t1 Sample.request; fetch_t2 Sample.request;
      Call F_classify_water; Call F_classify_water; Call F_detect_change;
      Remote getMapId; Log ERROR "Server Error: Tile service unavailable."]).
Proof.
  apply (render_or_stats_failure Cases.service_render_fails Sample.request Sample.roi
           "Tile service unavailable.");
    first [reflexivity | discriminate].
Defined.

(** ** The remote calls of a request *)

(** X8. Whatever the service does, the handler first logs the request and
    then issues its remote calls in a fixed order and without repeating any:
    the remote calls of a run are an initial part of the size query of
    Period 1, the size query of Period 2, the map request and the stats
    request; so a request costs at most four remote calls. *)
Theorem remote_calls_in_order (svc : Service) (request : AnalysisRequest) :
  ∃ outcome tr,
    analyze_change svc request [] = (outcome, request_logged request :: tr)
    ∧ List.filter is_remote tr
      `prefix_of` [fetch_t1 request; fetch_t2 request;
                   Remote getMapId; Remote reduceRegion_getInfo]
    ∧ (remote_calls (request_logged request :: tr) ≤ 4)%nat.
Proof.
  assert (Hcount : ∀ tr : Trace,
            List.filter is_remote tr
            `prefix_of` [fetch_t1 request; fetch_t2 request;
                         Remote getMapId; Remote reduceRegion_getInfo] →
            (remote_calls (request_logged request :: tr) ≤ 4)%nat).
  { intros tr Hpre. apply prefix_length in Hpre.
    unfold remote_calls. cbn [List.filter request_logged is_remote].
    simpl in Hpre. exact Hpre. }
  assert (Hgoal : ∀ outcome tr,
            analyze_change svc request [] = (outcome, request_logged request :: tr) →
            List.filter is_remote tr
            `prefix_of` [fetch_t1 request; fetch_t2 request;
                         Remote getMapId; Remote reduceRegion_getInfo] →
            ∃ outcome tr,
              analyze_change svc request [] = (outcome, request_logged request :: tr)
              ∧ List.filter is_remote tr
                `prefix_of` [fetch_t1 request; fetch_t2 request;
                             Remote getMapId; Remote reduceRegion_getInfo]
              ∧ (remote_calls (request_logged request :: tr) ≤ 4)%nat).
  { intros outcome tr Hrun Hpre. exists outcome, tr. auto. }
  destruct (geometry_of svc (geojson request)) as [msg | roi] eqn:Hgeo.
  { eapply Hgoal; [apply (analyze_change_bad_geometry svc request msg Hgeo) |].
    now eexists. }
  destruct (fault svc 0%nat) as [msg |] eqn:H0.
  { eapply Hgoal; [apply (analyze_change_first_fetch_fails svc request roi msg Hgeo H0) |].
    now eexists. }
  destruct (fault svc 1%nat) as [msg |] eqn:H1.
  { eapply Hgoal;
      [apply (analyze_change_second_fetch_fails svc request roi msg Hgeo H0 H1) |].
    now eexists. }
  destruct (matching svc roi (date1_start request) (date1_end request))
    as [| s1 l1] eqn:Hm1.
  { eapply Hgoal.
    - apply (analyze_change_no_data svc request roi Hgeo H0 H1). left. exact Hm1.
    - now eexists. }
  destruct (matching svc roi (date2_start request) (date2_end request))
    as [| s2 l2] eqn:Hm2.
  { eapply Hgoal.
    - apply (analyze_change_no_data svc request roi Hgeo H0 H1). right. exact Hm2.
    - now eexists. }
  assert (Hne1 : matching svc roi (date1_start request) (date1_end request) ≠ [])
    by (rewrite Hm1; discriminate).
  assert (Hne2 : matching svc roi (date2_start request) (date2_end request) ≠ [])
    by (rewrite Hm2; discriminate).
  destruct (fault svc 2%nat) as [msg |] eqn:H2.
  { eapply Hgoal;
      [apply (analyze_change_render_fails svc request roi msg Hgeo H0 H1 Hne1 Hne2 H2) |].
    now eexists. }
  destruct (fault svc 3%nat) as [msg |] eqn:H3.
  { eapply Hgoal;
      [apply (analyze_change_stats_fails svc request roi msg
                Hgeo H0 H1 Hne1 Hne2 H2 H3) |].
    now eexists. }
  assert (Hf : ∀ n, (n < 4)%nat → fault svc n = None).
  { intros n Hn. destruct n as [| [| [| [| n]]]]; auto. lia. }
  pose proof (analyze_change_rendered svc request roi Hgeo Hf Hne1 Hne2) as Hrun.
  destruct (respond_cases (url_format svc (change_raster svc roi request))
              (region_stats svc (change_raster svc roi request) roi)
              (served request)) as [[response Hr] | [msg Hr]];
    rewrite Hr in Hrun.
  - eapply Hgoal; [exact Hrun |]. now eexists.
  - eapply Hgoal; [exact Hrun |]. now eexists.
Qed.

(** ** Successful requests *)

(** What a successful response assembly says about the answer of the stats
    step. *)
Lemma respond_Ok_inv (map_id : string)
  (answer : gmap string (option (gmap string PyNum))) (tr tr' : Trace)
  (response : AnalysisResponse) :
  respond map_id answer tr = (Ok response, tr') →
  ∃ h, histogram_of answer = Some h
       ∧ ∀ class, class ∈ ["1"; "2"; "3"] → overflows (class_count h class) = false.
Proof.
  assert (Hone : ∀ histogram class tr0 tr1 area,
            bind (dict_get histogram class (PyInt 0))
              (fun n => mul_float n pixel_area_sqkm) tr0 = (Ok area, tr1) →
            ∃ h, histogram = Some h ∧ overflows (class_count h class) = false).
  { intros histogram class tr0 tr1 area H.
    apply bind_Ok in H as (n & tr2 & Hget & Hmul).
    destruct histogram as [h |]; [| discriminate].
    exists h. split; [reflexivity |].
    injection Hget as <- _. unfold class_count, default.
    destruct (h !! class) as [[z | x] |]; simpl in *; try reflexivity.
    unfold mul_float in Hmul.
    destruct (is_infinity (float_of_Z z)); [discriminate | reflexivity]. }
  unfold respond, histogram_of. intros H.
  apply bind_Ok in H as (gain & tr1 & Hgain & H).
  apply bind_Ok in H as (loss & tr2 & Hloss & H).
  apply bind_Ok in H as (persistent & tr3 & Hpersistent & _).
  apply Hone in Hgain as (h & Hh & Hgain).
  apply Hone in Hloss as (h2 & Hh2 & Hloss).
  apply Hone in Hpersistent as (h3 & Hh3 & Hpersistent).
  assert (h2 = h) as -> by congruence. assert (h3 = h) as -> by congruence.
  exists h. split; [exact Hh |].
  intros class Hin. rewrite !elem_of_cons, elem_of_nil in Hin.
  destruct Hin as [-> | [-> | [-> | []]]]; assumption.
Qed.

(** X9. A request is answered 200 exactly when its geometry is accepted,
    none of its four remote calls fails, both periods match at least one
    image, the stats step returns a histogram (not [None]) and the three
    counts have a float.  The response then carries the tile URL issued for
    the change raster and the three areas of that histogram, and the run is
    the request log, two size queries, the classification of both composites,
    the change detection, the map request and the stats request. *)
Theorem success_exactly (svc : Service) (request : AnalysisRequest) :
  (∀ roi h,
     succeeds svc request roi h →
     analyze_change svc request []
     = (Ok {| tile_url := url_format svc (change_raster svc roi request);
              stats := {| gain_sqkm := class_area_sqkm h "1";
                          loss_sqkm := class_area_sqkm h "2";
                          persistent_sqkm := class_area_sqkm h "3" |} |},
        served request))
  ∧ (∀ response tr,
       analyze_change svc request [] = (Ok response, tr) →
       ∃ roi h, succeeds svc request roi h).
Proof.
  split.
  - intros roi h (Hgeo & Hf & Hm1 & Hm2 & Hh & Hfin).
    rewrite (analyze_change_rendered svc request roi Hgeo Hf Hm1 Hm2).
    now rewrite (respond_Ok _ _ _ h Hh Hfin).
  - intros response tr Hrun.
    destruct (geometry_of svc (geojson request)) as [msg | roi] eqn:Hgeo.
    { rewrite (analyze_change_bad_geometry svc request msg Hgeo) in Hrun.
      discriminate. }
    destruct (fault svc 0%nat) as [msg |] eqn:H0.
    { rewrite (analyze_change_first_fetch_fails svc request roi msg Hgeo H0) in Hrun.
      discriminate. }
    destruct (fault svc 1%nat) as [msg |] eqn:H1.
    { rewrite (analyze_change_second_fetch_fails svc request roi msg Hgeo H0 H1)
        in Hrun.
      discriminate. }
    destruct (matching svc roi (date1_start request) (date1_end request))
      as [| s1 l1] eqn:Hm1.
    { rewrite (analyze_change_no_data svc request roi Hgeo H0 H1 (or_introl Hm1))
        in Hrun.
      discriminate. }
    destruct (matching svc roi (date2_start request) (date2_end request))
      as [| s2 l2] eqn:Hm2.
    { rewrite (analyze_change_no_data svc request roi Hgeo H0 H1 (or_intror Hm2))
        in Hrun.
      discriminate. }
    assert (Hne1 : matching svc roi (date1_start request) (date1_end request) ≠ [])
      by (rewrite Hm1; discriminate).
    assert (Hne2 : matching svc roi (date2_start request) (date2_end request) ≠ [])
      by (rewrite Hm2; discriminate).
    destruct (fault svc 2%nat) as [msg |] eqn:H2.
    { rewrite (analyze_change_render_fails svc request roi msg
                 Hgeo H0 H1 Hne1 Hne2 H2) in Hrun.
      discriminate. }
    destruct (fault svc 3%nat) as [msg |] eqn:H3.
    { rewrite (analyze_change_stats_fails svc request roi msg
                 Hgeo H0 H1 Hne1 Hne2 H2 H3) in Hrun.
      discriminate. }
    assert (Hf : ∀ n, (n < 4)%nat → fault svc n = None).
    { intros n Hn. destruct n as [| [| [| [| n]]]]; auto. lia. }
    rewrite (analyze_change_rendered svc request roi Hgeo Hf Hne1 Hne2) in Hrun.
    destruct (respond (url_format svc (change_raster svc roi request))
                (region_stats svc (change_raster svc roi request) roi)
                (served request)) as [[r | e] tr1] eqn:Hr.
    + apply respond_Ok_inv in Hr as (h & Hh & Hfin).
      exists roi, h. unfold succeeds. rewrite Hm1, Hm2 in *. auto 10.
    + destruct e; discriminate.
Qed.

(** The sample request on the sample service meets the conditions. *)
Lemma success_exactly_witness :
  ∃ h, succeeds Sample.service Sample.request Sample.roi h
       ∧ analyze_change Sample.service Sample.request []
         = (Ok {| tile_url := "https://earthengine.example/maps/constant/tiles/{z}/{x}/{y}";
                  stats := mkStats 0.0001 0 0.0002 |},
            served Sample.request).
Proof.
  assert (Hs : succeeds Sample.service Sample.request Sample.roi
                 {[ "1" := PyInt 1; "3" := PyInt 2 ]}).
  { split; [reflexivity |]. split; [reflexivity |].
    split; [discriminate |]. split; [discriminate |].
    split; [vm_compute; reflexivity |].
    intros class Hin. rewrite !elem_of_cons, elem_of_nil in Hin.
    destruct Hin as [-> | [-> | [-> | []]]]; reflexivity. }
  eexists. split; [exact Hs |].
  rewrite (proj1 (success_exactly Sample.service Sample.request) _ _ Hs).
  reflexivity.
Defined.

(** ** The answer of the stats step *)

(** X10. When the answer of the stats step has no "constant" entry, the
    default [{}] applies: the request succeeds and the three areas are 0. *)
Theorem missing_histogram_gives_zero_areas (svc : Service)
  (request : AnalysisRequest) (roi : Geometry) :
  geometry_of svc (geojson request) = inr roi →
  (∀ n, (n < 4)%nat → fault svc n = None) →
  matching svc roi (date1_start request) (date1_end request) ≠ [] →
  matching svc roi (date2_start request) (date2_end request) ≠ [] →
  region_stats svc (change_raster svc roi request) roi !! "constant" = None →
  analyze_change svc request []
  = (Ok {| tile_url := url_format svc (change_raster svc roi request);
           stats := mkStats 0 0 0 |},
     served request).
Proof.
  intros Hgeo Hf Hm1 Hm2 Hnone.
  rewrite (analyze_change_rendered svc request roi Hgeo Hf Hm1 Hm2).
  rewrite (respond_Ok _ _ _ ∅).
  - reflexivity.
  - unfold histogram_of. now rewrite Hnone.
  - intros class _. reflexivity.
Qed.

Lemma missing_histogram_gives_zero_areas_witness :
  analyze_change Cases.service_no_entry Sample.request []
  = (Ok {| tile_url := "https://earthengine.example/maps/constant/tiles/{z}/{x}/{y}";
           stats := mkStats 0 0 0 |},
     served Sample.request).
Proof.
  apply (missing_histogram_gives_zero_areas Cases.service_no_entry Sample.request
           Sample.roi); first [reflexivity | discriminate].
Defined.

(** X11. When the answer of the stats step maps "constant" to [None], the
    default does not apply: reading a class out of [None] raises, after both
    the map and the stats were requested, and the request is answered 500
    with the message of that exception. *)
Theorem null_histogram_is_server_error (svc : Service)
  (request : AnalysisRequest) (roi : Geometry) :
  geometry_of svc (geojson request) = inr roi →
  (∀ n, (n < 4)%nat → fault svc n = None) →
  matching svc roi (date1_start request) (date1_end request) ≠ [] →
  matching svc roi (date2_start request) (date2_end request) ≠ [] →
  region_stats svc (change_raster svc roi request) roi !! "constant" = Some None →
  analyze_change svc request []
  = (Raise (HTTPException 500 "'NoneType' object has no attribute 'get'"),
     (served request
      ++ [Log ERROR "Server Error: 'NoneType' object has no attribute 'get'"])%list).
Proof.
  intros Hgeo Hf Hm1 Hm2 Hnull.
  rewrite (analyze_change_rendered svc request roi Hgeo Hf Hm1 Hm2).
  unfold respond. rewrite Hnull. reflexivity.
Qed.

Lemma null_histogram_is_server_error_witness :
  fst (analyze_change Cases.service_null_histogram Sample.request [])
  = Raise (HTTPException 500 "'NoneType' object has no attribute 'get'").
Proof.
  rewrite (null_histogram_is_server_error Cases.service_null_histogram
             Sample.request Sample.roi); first [reflexivity | discriminate].
Defined.

(** ** The HTTP surface *)

(** The handler raises nothing but a no-data 404 or a 500. *)
Lemma analyze_change_raises (svc : Service) (request : AnalysisRequest) :
  raises_only
    (fun e => no_data_not_found request e ∨ ∃ msg, e = HTTPException 500 msg)
    (analyze_change svc request).
Proof.
  intros tr e tr' H. unfold analyze_change, try_except in H.
  pose proof (analyze_change_body_raises svc request tr) as Hbody.
  destruct (analyze_change_body svc request tr) as [[r | e0] tr0]; [discriminate |].
  specialize (Hbody e0 tr0 eq_refl).
  destruct e0 as [status_code detail | msg].
  - injection H as <- _. destruct Hbody as [[msg Hmsg] | Hnd]; [discriminate |].
    now left.
  - injection H as <- _. right. now exists msg.
Qed.

(** X12. The endpoint answers with one of four statuses: 422 exactly when
    the body does not validate, and otherwise 200, 404 or 500; a 404 always
    carries the no-data detail of Period 1 or of Period 2 of the validated
    request. *)
Theorem post_analyze_statuses (svc : Service) (body : Json) (tr : Trace) :
  let response := fst (post_analyze svc body tr) in
  status response ∈ [200; 404; 422; 500]
  ∧ (response = Http422 ↔ AnalysisRequest_validate body = None)
  ∧ (∀ detail, response = HttpError 404 detail →
       ∃ request, AnalysisRequest_validate body = Some request
                  ∧ (detail = detail_period1 request ∨ detail = detail_period2 request)).
Proof.
  cbv zeta. unfold post_analyze.
  destruct (AnalysisRequest_validate body) as [request |] eqn:Hv.
  - pose proof (analyze_change_raises svc request tr) as Hraises.
    destruct (analyze_change svc request tr) as [[content | e] tr'].
    + destruct (json_compliant content); cbn [fst]; (split; [| split]).
      * simpl. rewrite !elem_of_cons. auto.
      * split; discriminate.
      * discriminate.
      * simpl. rewrite !elem_of_cons. auto.
      * split; discriminate.
      * discriminate.
    + destruct (Hraises e tr' eq_refl) as [[-> | ->] | [msg ->]]; cbn [fst].
      * split; [| split].
        -- simpl. rewrite !elem_of_cons. auto.
        -- split; discriminate.
        -- intros detail H. injection H as <-. exists request. auto.
      * split; [| split].
        -- simpl. rewrite !elem_of_cons. auto.
        -- split; discriminate.
        -- intros detail H. injection H as <-. exists request. auto.
      * split; [| split].
        -- simpl. rewrite !elem_of_cons. auto.
        -- split; discriminate.
        -- discriminate.
  - split; [| split].
    + simpl. rewrite !elem_of_cons. auto.
    + split; reflexivity.
    + discriminate.
Qed.

(** An infinite count: the handler returns an infinite area, the encoder
    refuses it and the client is answered 500. *)
Example post_analyze_infinite_area :
  gain_sqkm <$> (stats <$> (match fst (analyze_change Cases.service_infinite_count
                                          Sample.request []) with
                            | Ok content => Some content
                            | Raise _ => None
                            end)) = Some infinity
  ∧ fst (post_analyze Cases.service_infinite_count Sample.body [])
    = HttpError 500 "Internal Server Error".
Proof. split; vm_compute; reflexivity. Qed.

(** ** Validation of the body *)

(** X13. The five fields of the request model are required: a body that
    lacks one of them is answered 422 and the handler does not run (the trace
    is untouched).  Any other field of the body is ignored: adding it changes
    neither the answer nor the run. *)
Theorem required_fields (svc : Service) (d : gmap string Json) (tr : Trace) :
  (∀ field,
     field ∈ ["geojson"; "date1_start"; "date1_end"; "date2_start"; "date2_end"] →
     d !! field = None →
     post_analyze svc (JObject d) tr = (Http422, tr))
  ∧ (∀ field value,
       field ∉ ["geojson"; "date1_start"; "date1_end"; "date2_start"; "date2_end"] →
       post_analyze svc (JObject (<[field := value]> d)) tr
       = post_analyze svc (JObject d) tr).
Proof.
  split.
  - intros field Hfield Hnone.
    assert (Hv : AnalysisRequest_validate (JObject d) = None).
    { unfold AnalysisRequest_validate, get_dict, get_str.
      rewrite !elem_of_cons, elem_of_nil in Hfield.
      destruct Hfield as [-> | [-> | [-> | [-> | [-> | []]]]]]; rewrite Hnone.
      - reflexivity.
      - destruct (d !! "geojson") as [[| | | | | g] |]; reflexivity.
      - destruct (d !! "geojson") as [[| | | | | g] |]; try reflexivity.
        destruct (d !! "date1_start") as [[| | | s1 | |] |]; reflexivity.
      - destruct (d !! "geojson") as [[| | | | | g] |]; try reflexivity.
        destruct (d !! "date1_start") as [[| | | s1 | |] |]; try reflexivity.
        destruct (d !! "date1_end") as [[| | | e1 | |] |]; reflexivity.
      - destruct (d !! "geojson") as [[| | | | | g] |]; try reflexivity.
        destruct (d !! "date1_start") as [[| | | s1 | |] |]; try reflexivity.
        destruct (d !! "date1_end") as [[| | | e1 | |] |]; try reflexivity.
        destruct (d !! "date2_start") as [[| | | s2 | |] |]; reflexivity. }
    unfold post_analyze. now rewrite Hv.
  - intros field value Hfield.
    rewrite !not_elem_of_cons in Hfield.
    destruct Hfield as (Hg & Hs1 & He1 & Hs2 & He2 & _).
    unfold post_analyze, AnalysisRequest_validate, get_dict, get_str.
    rewrite !lookup_insert_ne by congruence. reflexivity.
Qed.

(** ** Start-up without credentials *)

(** X14. When the service account is configured but its credentials cannot
    be built, or the initialization with them fails, start-up goes on with
    the failure logged and the default credentials are not tried: in the first
    case no initialization call is made at all. *)
Theorem service_account_failure_no_fallback (host : Host)
  (service_account key_file msg : string) :
  let env := load_dotenv host in
  env !! "GEE_SERVICE_ACCOUNT" = Some service_account → service_account ≠ "" →
  env !! "GEE_KEY_FILE" = Some key_file → key_file ≠ "" →
  path_exists host key_file = true →
  (credentials_fault host service_account key_file = Some msg →
   ∃ app, import_main host []
          = (Ok app, [Call F_ServiceAccountCredentials;
                      Log ERROR ("Authentication Failed: " ++ msg)]))
  ∧ (credentials_fault host service_account key_file = None →
     initialize_fault host (Some (service_account, key_file)) = Some msg →
     ∃ app, import_main host []
            = (Ok app, [Call F_ServiceAccountCredentials;
                        Remote (Initialize (Some (service_account, key_file)));
                        Log ERROR ("Authentication Failed: " ++ msg)])).
Proof.
  cbv zeta. intros Hsa Hsa' Hkf Hkf' Hex.
  assert (Hc : service_account_configured host
                 (os_getenv (load_dotenv host) "GEE_SERVICE_ACCOUNT")
                 (os_getenv (load_dotenv host) "GEE_KEY_FILE") = true).
  { apply service_account_configured_iff. exists service_account, key_file. auto. }
  unfold import_main, authenticate, try_except, authenticate_body, bind.
  rewrite Hc. unfold os_getenv. rewrite Hsa, Hkf. cbn [default from_option id].
  unfold ServiceAccountCredentials, ee_Initialize, bind, emit, logger_info,
    logger_error, raise, ret.
  cbn [app]. split.
  - intros Hfault. rewrite Hfault. cbn. now eexists.
  - intros Hnone Hfault. rewrite Hnone. cbn [app]. rewrite Hfault. cbn. now eexists.
Qed.

Lemma service_account_failure_no_fallback_witness :
  ∃ app, import_main Sample.host_bad_key []
         = (Ok app, [Call F_ServiceAccountCredentials;
                     Log ERROR "Authentication Failed: Could not deserialize key data."]).
Proof.
  apply (service_account_failure_no_fallback Sample.host_bad_key
           "hydro@project.iam.gserviceaccount.com" "key.json"
           "Could not deserialize key data.");
    first [reflexivity | discriminate].
Defined.

(** ** Symmetries of the change detector *)

(** X15. Exchanging the two periods exchanges gain and loss and leaves
    persistent and masked pixels as they are. *)
Theorem detect_change_swap (water_t1 water_t2 : Band Z) (p : Pixel) :
  px (detect_change water_t2 water_t1) p
  = swap_class <$> px (detect_change water_t1 water_t2) p.
Proof.
  unfold detect_change; simpl.
  destruct (px water_t1 p) as [u |], (px water_t2 p) as [v |]; simpl; try reflexivity.
  destruct (Z.eqb_spec u 0), (Z.eqb_spec u 1), (Z.eqb_spec v 0), (Z.eqb_spec v 1);
    subst; simpl; try lia; reflexivity.
Qed.

(** X16. The change raster does not depend on the order in which the three
    conditional rewrites are applied: the overlay of the three rules in any
    order has the pixels of the raster the source builds. *)
Theorem detect_change_order_irrelevant (water_t1 water_t2 : Band Z)
  (rules : list (Band Z * Z)) (p : Pixel) :
  rules ≡ₚ change_rules water_t1 water_t2 →
  px (overlay rules) p = px (detect_change water_t1 water_t2) p.
Proof.
  intros Hperm. symmetry in Hperm. apply permutations_Permutation in Hperm.
  unfold change_rules in Hperm. cbn in Hperm.
  rewrite !elem_of_cons, elem_of_nil in Hperm.
  unfold detect_change.
  destruct Hperm as [-> | [-> | [-> | [-> | [-> | [-> | []]]]]]];
    unfold overlay, gain_condition, loss_condition, persistent_condition; simpl;
    destruct (px water_t1 p) as [u |], (px water_t2 p) as [v |]; simpl;
    try reflexivity;
    destruct (Z.eqb_spec u 0), (Z.eqb_spec u 1), (Z.eqb_spec v 0), (Z.eqb_spec v 1);
    subst; simpl; try lia; reflexivity.
Qed.

(** The source's order read backwards gives the same raster. *)
Lemma detect_change_order_irrelevant_witness :
  let water_t1 := classify_water (composite Sample.service Sample.roi
                                    "2023-01-01" "2023-02-01") 0 in
  let water_t2 := classify_water (composite Sample.service Sample.roi
                                    "2024-01-01" "2024-02-01") 0 in
  px (overlay (rev (change_rules water_t1 water_t2))) (0, 1)
  = px (detect_change water_t1 water_t2) (0, 1).
Proof.
  cbv zeta. apply detect_change_order_irrelevant.
  apply Permutation_rev.
Defined.
